(** * loldata: the match-aggregation pipeline of [api/utils]

    A shallow embedding of [src/api/utils/helpers.py] (the enrichment
    resolvers) and [src/api/utils/interactions.py] (the rate-limited fetch
    loop, the match enricher and the aggregate accumulator), followed by the
    properties the specification states about them.

    Conventions of the embedding:
    - a Python [int] is a [Z]; a Python [float] is a value of an abstract type
      [F] that comes with the four operations the code applies to floats
      (class [PyFloat]); a JSON number that the code stores either as int or
      as float is a [number];
    - a Python exception is a value of [exn], and code that can raise returns
      a [res];
    - remote calls and sleeps are recorded in a [trace]; code that performs
      them lives in the state-and-error monad [io];
    - a JSON object with a fixed set of keys is a record, a JSON object used
      as a dictionary ([roles], [champions]) is a [gmap string _]. *)

From Stdlib Require Import ZArith QArith Qround Ascii.
From stdpp Require Import base option list strings gmap.

Local Open Scope string_scope.
Local Open Scope list_scope.
Local Open Scope Z_scope.

(** ** Python values the code manipulates *)

(** The exceptions the modelled code can raise. *)
Inductive exn : Type :=
| ZeroDivisionError
| KeyError (key : string)
| IndexError
| TypeError
| UnboundLocalError (var : string)
| Exception (msg : string).

(** The outcome of code that either returns or raises. *)
Inductive res (A : Type) : Type :=
| Ok (a : A)
| Raise (e : exn).
Arguments Ok {A} a.
Arguments Raise {A} e.

#[global] Instance res_ret : MRet res := fun _ a => Ok a.
#[global] Instance res_bind : MBind res := fun _ _ f m =>
  match m with
  | Ok a => f a
  | Raise e => Raise e
  end.

(** The float operations of the code: [a / b] on two ints with [b] non-zero,
    [x * n] with [n] an int, [round(x, ndigits)] and [int(x)]. Their results
    are whatever the Python runtime computes; the development only relies on
    the code applying the same operation to the same arguments. *)
Class PyFloat (F : Type) : Type := {
  truediv_int : Z → Z → F;
  mul_int : F → Z → F;
  round_ndigits : F → Z → F;
  trunc_int : F → Z
}.

(** A JSON number as the code stores it: the literal [0] of a fresh record or
    the int [kills + assists] on one side, the float that [round] returns on
    the other. *)
Inductive number (F : Type) : Type :=
| NInt (n : Z)
| NFloat (x : F).
Arguments NInt {F} n.
Arguments NFloat {F} x.

(** [a / b] on ints: raises on a zero divisor. *)
Definition py_truediv `{PyFloat F} (a b : Z) : res F :=
  if decide (b = 0) then Raise ZeroDivisionError else Ok (truediv_int a b).

(** The position [l[i]] reads: a negative index counts from the end, an
    index out of range raises. *)
Definition py_index {A : Type} (l : list A) (i : Z) : res nat :=
  let n := Z.of_nat (length l) in
  let j := if decide (i < 0) then i + n else i in
  if decide (0 ≤ j < n) then Ok (Z.to_nat j) else Raise IndexError.

(** [l[i]] on a list. *)
Definition py_getitem {A : Type} (l : list A) (i : Z) : res A :=
  k ← py_index l i;
  match l !! k with
  | Some a => Ok a
  | None => Raise IndexError
  end.

(** ** Strings *)

(** [str.lower] on one character of the ASCII range. *)
Definition lower_ascii (c : ascii) : ascii :=
  let n := nat_of_ascii c in
  if decide (65 ≤ n ≤ 90)%nat then ascii_of_nat (n + 32) else c.

(** [s.lower()]. *)
Fixpoint lower (s : string) : string :=
  match s with
  | EmptyString => EmptyString
  | String c s' => String (lower_ascii c) (lower s')
  end.

(** [s.split(sep)] for a separator of one character: the pieces between the
    occurrences of [sep]; always at least one piece. *)
Fixpoint split_char (sep : ascii) (s : string) : list string :=
  match s with
  | EmptyString => [EmptyString]
  | String c s' =>
      if decide (c = sep) then EmptyString :: split_char sep s'
      else match split_char sep s' with
           | p :: ps => String c p :: ps
           | [] => [String c EmptyString]
           end
  end.

(** [sep.join(parts)]. *)
Fixpoint join (sep : string) (parts : list string) : string :=
  match parts with
  | [] => EmptyString
  | [p] => p
  | p :: ps => p +:+ sep +:+ join sep ps
  end.

(** [s] without its prefix [p], when [s] starts with [p]. *)
Fixpoint strip_prefix (p s : string) : option string :=
  match p, s with
  | EmptyString, _ => Some s
  | String a p', String b s' => if decide (a = b) then strip_prefix p' s' else None
  | String _ _, EmptyString => None
  end.

(** [s.split(sep, 1)[1]]: what follows the first occurrence of [sep] in [s];
    when [sep] does not occur the split has one piece and [[1]] raises. *)
Fixpoint after_first (sep s : string) : res string :=
  match strip_prefix sep s with
  | Some rest => Ok rest
  | None =>
      match s with
      | EmptyString => Raise IndexError
      | String _ s' => after_first sep s'
      end
  end.

(** ** The enrichment resolvers of [helpers.py] *)

(** The platforms [get_region_by_platform] lists, by routing value. *)
Definition americas_platforms : list string := ["NA1"; "BR1"; "LA1"; "LA2"; "OC1"].
Definition europe_platforms : list string := ["EUN1"; "EUW1"; "TR1"; "RU"].
Definition asia_platforms : list string := ["KR"; "JP1"].

(** [get_region_by_platform]: the local [region] is assigned in the three
    branches of the [if]/[elif] chain only; there is no [else], so a platform
    outside the three tuples reaches [return region] with [region] unbound. *)
Definition get_region_by_platform (platform : string) : res string :=
  let region : option string :=
    if bool_decide (platform ∈ americas_platforms) then Some "AMERICAS"
    else if bool_decide (platform ∈ europe_platforms) then Some "EUROPE"
    else if bool_decide (platform ∈ asia_platforms) then Some "ASIA"
    else None in
  match region with
  | Some r => Ok r
  | None => Raise (UnboundLocalError "region")
  end.

(** [get_match_mode]. *)
Definition get_match_mode (queue_id : Z) : string :=
  match queue_id with
  | 400 => "Normal Draft"
  | 420 => "Ranked Solo"
  | 430 => "Normal Blind"
  | _ => "Special"
  end.

(** [get_summoner_spell]. *)
Definition get_summoner_spell (summoner_key : Z) : string :=
  match summoner_key with
  | 1 => "summoner_boost"
  | 3 => "summoner_exhaust"
  | 4 => "summoner_flash"
  | 6 => "summoner_haste"
  | 7 => "summoner_heal"
  | 11 => "summoner_smite"
  | 12 => "summoner_teleport"
  | 13 => "summonermana"
  | 14 => "summonerignite"
  | 21 => "summonerbarrier"
  | 32 => "summoner_mark"
  | _ => "summoner_empty"
  end.

(** [get_rune_secondary]. *)
Definition get_rune_secondary (rune_id : Z) : string :=
  match rune_id with
  | 8000 => "7201_precision"
  | 8100 => "7200_domination"
  | 8200 => "7202_sorcery"
  | 8300 => "7203_whimsy"
  | _ => "7204_resolve"
  end.

(** The codes the three [match] statements name. *)
Definition known_queue_ids : list Z := [400; 420; 430].
Definition known_summoner_keys : list Z := [1; 3; 4; 6; 7; 11; 12; 13; 14; 21; 32].
Definition known_secondary_styles : list Z := [8000; 8100; 8200; 8300].

(** ** The data model *)

(** One entry of [perks.json]. *)
Record perk : Type := { perk_id : Z; iconPath : string }.

(** One element of [participant["perks"]["styles"]]: the style id and the
    perk ids of its selections. *)
Record perk_style : Type := { style : Z; selections : list Z }.

(** A participant as the remote API sends it (the keys the code reads). *)
Record participant_json : Type := {
  championName : string;
  teamPosition : string;
  win : bool;
  kills : Z;
  deaths : Z;
  assists : Z;
  totalMinionsKilled : Z;
  neutralMinionsKilled : Z;
  visionScore : Z;
  goldEarned : Z;
  totalDamageDealtToChampions : Z;
  summoner1Id : Z;
  summoner2Id : Z;
  styles : list perk_style;
  item0 : Z; item1 : Z; item2 : Z; item3 : Z; item4 : Z; item5 : Z; item6 : Z
}.

Section DataModel.
Context {F : Type}.

(** A participant dictionary: the keys of the payload, and the keys
    [get_match_preview] adds (absent, [None], until it writes them). *)
Record participant : Type := {
  raw :> participant_json;
  kda : option (number F);
  summoner_spell_1 : option string;
  summoner_spell_2 : option string;
  rune_primary : option string;
  rune_secondary : option string;
  items : option (list Z)
}.

(** [match["info"]]. *)
Record match_info : Type := {
  gameMode : string;
  queueId : Z;
  gameDuration : Z;
  gameCreation : Z;
  gameVersion : string;
  participants : list participant;
  matchups : option (list (participant * participant))
}.

(** A match dictionary: the payload ([metadata.matchId], [info]) and the
    keys [get_match_preview] adds. *)
Record match_json : Type := {
  matchId : string;
  info : match_info;
  player_summary : option participant;
  date : option string;
  patch : option string;
  match_mode : option string
}.

(** [summoner_db.stats[key]]. *)
Record stat : Type := { total : Z; per_min : number F; per_match : number F }.

(** [summoner_db.stats]: one [stat] per tracked key. *)
Record stats_json : Type := {
  stat_kills : stat;
  stat_deaths : stat;
  stat_assists : stat;
  stat_minions : stat;
  stat_vision : stat
}.

(** [summoner_db.roles[position]]. *)
Record role : Type := { role_num : Z; role_wins : Z; role_losses : Z; role_win_rate : Z }.

(** [summoner_db.champions[name]]. *)
Record champion_data : Type := {
  ch_num : Z;
  ch_kills : Z;
  ch_assists : Z;
  ch_deaths : Z;
  ch_kda : number F;
  ch_wins : Z;
  ch_losses : Z;
  ch_win_rate : number F;
  ch_play_rate : number F;
  ch_minions : Z;
  ch_vision : Z;
  ch_gold : Z;
  ch_damage : Z;
  ch_last_played : string
}.

(** The persisted [Summoner] row (AggregateStats). *)
Record Summoner : Type := {
  matches : Z;
  minutes : Z;
  stats : stats_json;
  roles : gmap string role;
  champions : gmap string champion_data
}.
End DataModel.
Arguments participant F : clear implicits.
Arguments match_info F : clear implicits.
Arguments match_json F : clear implicits.
Arguments stat F : clear implicits.
Arguments stats_json F : clear implicits.
Arguments champion_data F : clear implicits.
Arguments Summoner F : clear implicits.

(** The HTTP response of [session.get]: the status, the [Retry-After]
    header read as an int when the response carries one, and the body. *)
Record response (J : Type) : Type := {
  status : Z;
  retry_after : option Z;
  json : J
}.
Arguments status {J} r.
Arguments retry_after {J} r.
Arguments json {J} r.

(** The tracked stats, as keys of [summoner_db.stats]. *)
Inductive stat_key : Type := Kills | Deaths | Assists | Minions | Vision.

Definition get_stat {F} (k : stat_key) (s : stats_json F) : stat F :=
  match k with
  | Kills => stat_kills s
  | Deaths => stat_deaths s
  | Assists => stat_assists s
  | Minions => stat_minions s
  | Vision => stat_vision s
  end.

(** ** Remote calls *)

(** What the process does to the outside: a GET of a URL, a sleep. *)
Inductive event : Type :=
| EvGet (url : string)
| EvSleep (secs : Z).

(** The events so far, oldest first. *)
Definition trace : Type := list event.

(** Code that talks to the outside: from the events so far to an outcome and
    the events after. An exception keeps the events up to the raise. *)
Definition io (A : Type) : Type := trace → res A * trace.

#[global] Instance io_ret : MRet io := fun _ a t => (Ok a, t).
#[global] Instance io_bind : MBind io := fun _ _ f m t =>
  match m t with
  | (Ok a, t') => f a t'
  | (Raise e, t') => (Raise e, t')
  end.

(** A computation without remote calls, run inside [io]. *)
Definition lift {A : Type} (r : res A) : io A := fun t => (r, t).

(** The number of GETs of [url] in a trace. *)
Fixpoint gets_of (url : string) (t : trace) : nat :=
  match t with
  | [] => 0%nat
  | EvGet u :: t' => if decide (u = url) then S (gets_of url t') else gets_of url t'
  | EvSleep _ :: t' => gets_of url t'
  end.

(** The sleeps of a trace, oldest first. *)
Fixpoint sleeps_of (t : trace) : list Z :=
  match t with
  | [] => []
  | EvGet _ :: t' => sleeps_of t'
  | EvSleep s :: t' => s :: sleeps_of t'
  end.

(** [d[key]] on an optional key: [KeyError] when the key is absent. *)
Definition py_key {A : Type} (key : string) (o : option A) : res A :=
  match o with
  | Some a => Ok a
  | None => Raise (KeyError key)
  end.

(** [try: body except ZeroDivisionError: handler]. *)
Definition try_except_ZeroDivisionError {A : Type} (body handler : res A) : res A :=
  match body with
  | Raise ZeroDivisionError => handler
  | outcome => outcome
  end.

(** [await sleep(secs)]. *)
Definition sleep (secs : Z) : io unit := fun t => (Ok (), t ++ [EvSleep secs]).

(** [await gather] of the tasks, on the schedule on which the tasks are
    answered one after the other in the order of submission. When every
    task returns, [gather] returns the results in the order of submission,
    on this schedule as on any other. When a task raises, [gather] raises
    (there is no [return_exceptions]) and the results of the other tasks
    are not delivered. The event loop lets through the exception that is
    raised first in time: that of the one failing task when one task
    fails, and one that the program does not decide when several do; on
    the schedule modelled here it is the exception of the first failing
    task of the list, and the tasks after it have not been answered yet.
    The properties below that are about a failing batch are stated for what
    does not depend on the schedule. *)
Fixpoint gather {A : Type} (tasks : list (io A)) : io (list A) :=
  match tasks with
  | [] => mret []
  | task :: rest =>
      a ← task;
      others ← gather rest;
      mret (a :: others)
  end.

(** The URL of the perks table. *)
Definition perks_url : string :=
  "https://raw.communitydragon.org/latest/plugins/rcp-be-lol-game-data/global/default/v1/perks.json".

(** The queue ids [get_match_preview] does not enrich: 0 is custom matches;
    2000, 2010 and 2020 are tutorial matches. *)
Definition unscored_queue_ids : list Z := [0; 2000; 2010; 2020].

(** [max_attempts = 3], the local of both fetch loops. *)
Definition max_attempts : nat := 3.

Section PerksTable.
(** The remote perks table: what the [k]-th GET of [perks_url] answers. *)
Variable perks_api : nat → list perk.

(** [get(url).json()] in [get_rune_primary]. *)
Definition requests_get_perks : io (list perk) :=
  fun t => (Ok (perks_api (gets_of perks_url t)), t ++ [EvGet perks_url]).

(** [get_rune_primary]: the table is fetched by the call itself;
    [next(..., None)] is the first entry with the id or [None], and
    subscripting [None] raises [TypeError]. *)
Definition get_rune_primary (rune_id : Z) : io string :=
  data_json ← requests_get_perks;
  let rune_dict := List.find (fun item => bool_decide (perk_id item = rune_id)) data_json in
  match rune_dict with
  | Some item => lift (after_first "Styles/" (iconPath item))
  | None => lift (Raise TypeError)
  end.

(** The trace after a sequence of calls of [get_rune_primary], whatever
    each call returns or raises. *)
Definition trace_after_rune_calls (rune_ids : list Z) (t : trace) : trace :=
  fold_left (fun t' rune_id => snd (get_rune_primary rune_id t')) rune_ids t.
End PerksTable.

Section RankFetch.
Context {L : Type}.
(** The league endpoint: what the [k]-th GET of a URL answers. *)
Variable league_api : string → nat → response L.

Definition session_get_league (url : string) : io (response L) :=
  fun t => (Ok (league_api url (gets_of url t)), t ++ [EvGet url]).

(** The [while attempts < max_attempts] loop of [get_leagues_json], by
    recursion on the attempts left ([max_attempts - attempts]). The loop
    ends with [attempts = max_attempts], so the test before the [raise]
    holds whenever it is reached. *)
Fixpoint get_leagues_json_loop (attempts_left : nat) (url : string) : io L :=
  match attempts_left with
  | O => lift (Raise (Exception "Failed: Maxed out attempts"))
  | S attempts_left' =>
      response ← session_get_league url;
      if decide (status response = 200) then mret (json response)
      else if decide (status response = 429) then
        secs ← lift (py_key "Retry-After" (retry_after response));
        sleep secs;;
        get_leagues_json_loop attempts_left' url
      else get_leagues_json_loop attempts_left' url
  end.

Definition get_leagues_json (url : string) : io L :=
  get_leagues_json_loop max_attempts url.
End RankFetch.

(** ** The aggregate accumulator of [interactions.py] *)

Section Accumulator.
Context `{PyFloat F}.

(** [str(datetime.fromtimestamp(ms / 1000.0).date())]: the calendar date of
    an epoch in milliseconds, as the [datetime] module of the running
    process renders it. *)
Variable fromtimestamp_date : Z → string.

(** [get_date_by_timestamp]. *)
Definition get_date_by_timestamp (match_timestamp : Z) : string :=
  fromtimestamp_date match_timestamp.

(** [int(round(match["info"]["gameDuration"] / 60, 0))]. *)
Definition match_minutes (m : match_json F) : Z :=
  trunc_int (round_ndigits (truediv_int (gameDuration (info m)) 60) 0).

(** The three statements [add_database_ranked_stats] repeats for each key
    of [stats]: add to [total], then recompute [per_min] and [per_match]
    from the new total. *)
Definition fold_stat (s : stat F) (value minutes' matches' : Z) : res (stat F) :=
  let total' := total s + value in
  per_min' ← py_truediv total' minutes';
  per_match' ← py_truediv total' matches';
  mret {| total := total';
          per_min := NFloat (round_ndigits per_min' 2);
          per_match := NFloat (round_ndigits per_match' 2) |}.

(** [add_database_ranked_stats]; the keys are updated in the order of the
    source: kills, assists, deaths, minions, vision. *)
Definition add_database_ranked_stats (summoner_db : Summoner F) (m : match_json F)
    (player_json : participant F) : res (Summoner F) :=
  let matches' := matches summoner_db + 1 in
  let minutes' := minutes summoner_db + match_minutes m in
  let st := stats summoner_db in
  kills' ← fold_stat (stat_kills st) (kills player_json) minutes' matches';
  assists' ← fold_stat (stat_assists st) (assists player_json) minutes' matches';
  deaths' ← fold_stat (stat_deaths st) (deaths player_json) minutes' matches';
  minions' ← fold_stat (stat_minions st)
               (totalMinionsKilled player_json + neutralMinionsKilled player_json)
               minutes' matches';
  vision' ← fold_stat (stat_vision st) (visionScore player_json) minutes' matches';
  mret {| matches := matches';
          minutes := minutes';
          stats := {| stat_kills := kills'; stat_deaths := deaths'; stat_assists := assists';
                      stat_minions := minions'; stat_vision := vision' |};
          roles := roles summoner_db;
          champions := champions summoner_db |}.

(** [round((kills + assists) / deaths, 2) if deaths != 0 else kills + assists],
    the expression of both branches of [add_database_champion_stats]. *)
Definition champion_kda (kills' assists' deaths' : Z) : res (number F) :=
  if decide (deaths' ≠ 0) then
    q ← py_truediv (kills' + assists') deaths';
    mret (NFloat (round_ndigits q 2))
  else mret (NInt (kills' + assists')).

(** [summoner_db.champions[name] = entry]. *)
Definition set_champion (summoner_db : Summoner F) (name : string) (entry : champion_data F)
    : Summoner F :=
  {| matches := matches summoner_db;
     minutes := minutes summoner_db;
     stats := stats summoner_db;
     roles := roles summoner_db;
     champions := <[name := entry]> (champions summoner_db) |}.

(** [add_database_champion_stats]. *)
Definition add_database_champion_stats (summoner_db : Summoner F) (m : match_json F)
    (player_json : participant F) : res (Summoner F) :=
  let kills' := kills player_json in
  let assists' := assists player_json in
  let deaths' := deaths player_json in
  match champions summoner_db !! championName player_json with
  | None =>
      kda' ← champion_kda kills' assists' deaths';
      play_rate' ← py_truediv 1 (matches summoner_db);
      mret (set_champion summoner_db (championName player_json)
        {| ch_num := 1;
           ch_kills := kills';
           ch_assists := assists';
           ch_deaths := deaths';
           ch_kda := kda';
           ch_wins := if win player_json then 1 else 0;
           ch_losses := if negb (win player_json) then 1 else 0;
           ch_win_rate := if win player_json then NInt 100 else NInt 0;
           ch_play_rate := NFloat play_rate';
           ch_minions := totalMinionsKilled player_json + neutralMinionsKilled player_json;
           ch_vision := visionScore player_json;
           ch_gold := goldEarned player_json;
           ch_damage := totalDamageDealtToChampions player_json;
           ch_last_played := get_date_by_timestamp (gameCreation (info m)) |})
  | Some champion_data =>
      let num1 := ch_num champion_data + 1 in
      let kills1 := ch_kills champion_data + kills' in
      let assists1 := ch_assists champion_data + assists' in
      let deaths1 := ch_deaths champion_data + deaths' in
      kda1 ← champion_kda kills1 assists1 deaths1;
      let wins1 := if win player_json then ch_wins champion_data + 1 else ch_wins champion_data in
      let losses1 :=
        if win player_json then ch_losses champion_data else ch_losses champion_data + 1 in
      win_ratio ← py_truediv wins1 num1;
      play_ratio ← py_truediv num1 (matches summoner_db);
      mret (set_champion summoner_db (championName player_json)
        {| ch_num := num1;
           ch_kills := kills1;
           ch_assists := assists1;
           ch_deaths := deaths1;
           ch_kda := kda1;
           ch_wins := wins1;
           ch_losses := losses1;
           ch_win_rate := NFloat (round_ndigits (mul_int win_ratio 100) 2);
           ch_play_rate := NFloat (round_ndigits play_ratio 2);
           ch_minions := ch_minions champion_data
                         + (totalMinionsKilled player_json + neutralMinionsKilled player_json);
           ch_vision := ch_vision champion_data + visionScore player_json;
           ch_gold := ch_gold champion_data + goldEarned player_json;
           ch_damage := ch_damage champion_data + totalDamageDealtToChampions player_json;
           ch_last_played := get_date_by_timestamp (gameCreation (info m)) |})
  end.

(** [summoner_db.roles[position] = entry]. *)
Definition set_role (summoner_db : Summoner F) (position : string) (entry : role)
    : Summoner F :=
  {| matches := matches summoner_db;
     minutes := minutes summoner_db;
     stats := stats summoner_db;
     roles := <[position := entry]> (roles summoner_db);
     champions := champions summoner_db |}.

(** The body of [for match in match_preview_list] in
    [get_match_preview_list]. *)
Definition fold_match (summoner_db : Summoner F) (m : match_json F) : res (Summoner F) :=
  player ← py_key "player_summary" (player_summary m);
  let position_dict := lower (teamPosition (player : participant F)) in
  if bool_decide (gameMode (info m) = "CLASSIC") && negb (bool_decide (position_dict = ""))
  then
    bucket ← py_key position_dict (roles summoner_db !! position_dict);
    let num' := role_num bucket + 1 in
    let wins' := if win player then role_wins bucket + 1 else role_wins bucket in
    let losses' := if win player then role_losses bucket else role_losses bucket + 1 in
    ratio ← py_truediv wins' num';
    let summoner_db1 :=
      set_role summoner_db position_dict
        {| role_num := num'; role_wins := wins'; role_losses := losses';
           role_win_rate := trunc_int (mul_int ratio 100) |} in
    summoner_db2 ← add_database_ranked_stats summoner_db1 m player;
    add_database_champion_stats summoner_db2 m player
  else mret summoner_db.

(** The whole [for] loop: the matches folded in list order, stopping at
    the first exception. *)
Fixpoint fold_matches (summoner_db : Summoner F) (ms : list (match_json F))
    : res (Summoner F) :=
  match ms with
  | [] => mret summoner_db
  | m :: rest =>
      summoner_db' ← fold_match summoner_db m;
      fold_matches summoner_db' rest
  end.

(** A sequence of calls of [add_database_ranked_stats], each on the result
    of the one before. *)
Fixpoint fold_ranked_stats (summoner_db : Summoner F) (ms : list (match_json F * participant F))
    : res (Summoner F) :=
  match ms with
  | [] => mret summoner_db
  | (m, player_json) :: rest =>
      summoner_db' ← add_database_ranked_stats summoner_db m player_json;
      fold_ranked_stats summoner_db' rest
  end.
End Accumulator.

(** ** The match enricher and the fan-out fetcher of [interactions.py] *)

Section Fetch.
Context `{PyFloat F}.

(** [API_KEY = config("API")]. *)
Variable API_KEY : string.
(** The match endpoint: what the [k]-th GET of a URL answers. *)
Variable match_api : string → nat → response (match_json F).
Variable perks_api : nat → list perk.
Variable fromtimestamp_date : Z → string.
(** [helpers.get_participant_number] and [helpers.get_preview_stats] are
    called by [get_match_preview] and are not defined in [helpers.py] as
    it stands; they are parameters here, each either returning or raising.
    The dictionary [get_preview_stats] returns is taken to be an object
    of its own. *)
Variable get_participant_number : match_json F → string → res Z.
Variable get_preview_stats : match_json F → res (participant F).

(** [session.get(url)] on the match endpoint. *)
Definition session_get (url : string) : io (response (match_json F)) :=
  fun t => (Ok (match_api url (gets_of url t)), t ++ [EvGet url]).

(** The [try]/[except ZeroDivisionError] block that writes
    [player_summary["kda"]]. *)
Definition preview_kda (player : participant F) : res (number F) :=
  try_except_ZeroDivisionError
    (q ← py_truediv (kills player + assists player) (deaths player);
     mret (NFloat (round_ndigits q 2)))
    (mret (NInt (kills player + assists player))).

(** The item list literal of [get_match_preview]. *)
Definition preview_items (player : participant F) : list Z :=
  [item0 player; item1 player; item2 player; item6 player;
   item3 player; item4 player; item5 player].

(** [player["items"] = value]. *)
Definition set_items (player : participant F) (value : list Z) : participant F :=
  {| raw := raw player;
     kda := kda player;
     summoner_spell_1 := summoner_spell_1 player;
     summoner_spell_2 := summoner_spell_2 player;
     rune_primary := rune_primary player;
     rune_secondary := rune_secondary player;
     items := Some value |}.

(** [".".join(version.split(".")[:2]) + ".1"]. *)
Definition preview_patch (gameVersion' : string) : string :=
  join "." (take 2 (split_char "." gameVersion')) +:+ ".1".

(** The [for i in range(0, 5)] loop that fills [matchups]. *)
Definition preview_matchups (ps : list (participant F))
    : res (list (participant F * participant F)) :=
  mapM (fun i : Z => a ← py_getitem ps i; b ← py_getitem ps (i + 5); mret (a, b))
       [0; 1; 2; 3; 4].

(** The body of [if match["info"]["queueId"] not in {0, 2000, 2010, 2020}]:
    the enrichment of one match, in the order of the source.
    [player_summary] is first the very dictionary [participants[n]], so
    what is written to it before [get_preview_stats] is called shows in
    the participant list as well. *)
Definition enrich_match (m : match_json F) (puuid : string) : io (match_json F) :=
  participant_number ← lift (get_participant_number m puuid);
  index ← lift (py_index (participants (info m)) participant_number);
  player ← lift (py_getitem (participants (info m)) participant_number);
  kda' ← lift (preview_kda player);
  let spell1 := get_summoner_spell (summoner1Id (player : participant F)) in
  let spell2 := get_summoner_spell (summoner2Id (player : participant F)) in
  style0 ← lift (py_getitem (styles (player : participant F)) 0);
  perk0 ← lift (py_getitem (selections style0) 0);
  rune1 ← get_rune_primary perks_api perk0;
  style1 ← lift (py_getitem (styles (player : participant F)) 1);
  let rune2 := get_rune_secondary (style style1) in
  let annotated :=
    {| raw := raw player;
       kda := Some kda';
       summoner_spell_1 := Some spell1;
       summoner_spell_2 := Some spell2;
       rune_primary := Some rune1;
       rune_secondary := Some rune2;
       items := items player |} in
  let participants' := <[index := annotated]> (participants (info m)) in
  let info1 :=
    {| gameMode := gameMode (info m);
       queueId := queueId (info m);
       gameDuration := gameDuration (info m);
       gameCreation := gameCreation (info m);
       gameVersion := gameVersion (info m);
       participants := participants';
       matchups := matchups (info m) |} in
  summary ← lift (get_preview_stats
    {| matchId := matchId m; info := info1; player_summary := Some annotated;
       date := date m; patch := patch m; match_mode := match_mode m |});
  let match_date := get_date_by_timestamp fromtimestamp_date (gameCreation (info m)) in
  let patch' := preview_patch (gameVersion (info m)) in
  let summary' := set_items summary (preview_items summary) in
  let match_mode' :=
    if decide (gameMode (info m) = "CLASSIC") then get_match_mode (queueId (info m))
    else gameMode (info m) in
  matchups' ← lift (preview_matchups participants');
  mret {| matchId := matchId m;
          info := {| gameMode := gameMode (info m);
                     queueId := queueId (info m);
                     gameDuration := gameDuration (info m);
                     gameCreation := gameCreation (info m);
                     gameVersion := gameVersion (info m);
                     participants := participants';
                     matchups := Some matchups' |};
          player_summary := Some summary';
          date := Some match_date;
          patch := Some patch';
          match_mode := Some match_mode' |}.

(** The [while attempts < max_attempts] loop of [get_match_preview], by
    recursion on the attempts left ([max_attempts - attempts]). A 200
    returns the match, enriched unless its queue id is one of
    [unscored_queue_ids]; a 429 sleeps for [Retry-After]; every status
    other than 200 uses up one attempt. The loop ends with
    [attempts = max_attempts], so the test before the [raise] holds
    whenever it is reached. *)
Fixpoint get_match_preview_loop (attempts_left : nat) (url puuid : string)
    : io (match_json F) :=
  match attempts_left with
  | O => lift (Raise (Exception "Failed: Maxed out attempts"))
  | S attempts_left' =>
      response ← session_get url;
      if decide (status response = 200) then
        let m := json response in
        if bool_decide (queueId (info m) ∉ unscored_queue_ids) then enrich_match m puuid
        else mret m
      else if decide (status response = 429) then
        secs ← lift (py_key "Retry-After" (retry_after response));
        sleep secs;;
        get_match_preview_loop attempts_left' url puuid
      else get_match_preview_loop attempts_left' url puuid
  end.

(** [get_match_preview]. *)
Definition get_match_preview (url puuid : string) : io (match_json F) :=
  get_match_preview_loop max_attempts url puuid.

(** The URL [get_match_preview_list] builds for a match id. *)
Definition match_url (region match_id : string) : string :=
  "https://" +:+ region +:+ ".api.riotgames.com/lol/match/v5/matches/" +:+ match_id
    +:+ "?api_key=" +:+ API_KEY.

(** [get_match_preview_list]. The local [match_preview_list] is assigned
    inside [if matches:] only ([None] below while it is unbound), and the
    [return] reads it on both paths. *)
Definition get_match_preview_list (match_ids : list string) (summoner_db : Summoner F)
    (puuid : string) : io (Summoner F * list (match_json F)) :=
  locals ←
    match match_ids with
    | first :: _ =>
        let platform := hd EmptyString (split_char "_" first) in
        region ← lift (get_region_by_platform platform);
        match_preview_list ←
          gather (map (fun match_id => get_match_preview (match_url region match_id) puuid)
                      match_ids);
        summoner_db' ← lift (fold_matches fromtimestamp_date summoner_db match_preview_list);
        mret (summoner_db', Some match_preview_list)
    | [] => mret (summoner_db, None)
    end;
  match snd locals with
  | Some match_preview_list => mret (fst locals, match_preview_list)
  | None => lift (Raise (UnboundLocalError "match_preview_list"))
  end.
End Fetch.

(** ** A concrete setting for examples *)

(** Exact rational arithmetic as an instance of [PyFloat]: division and
    multiplication are exact, [round] is to the nearest multiple of
    [10^-ndigits] (a tie to the even one), [int] truncates towards zero.
    It stands in for the floats of the runtime in the examples below. *)
Module ExactArith.
Definition div (a b : Z) : Q := Qred (inject_Z a / inject_Z b).

Definition mul (x : Q) (n : Z) : Q := Qred (x * inject_Z n).

Definition round_half_even (x : Q) : Z :=
  let f := Qfloor x in
  match Qcompare (Qminus x (inject_Z f)) (Qmake 1 2) with
  | Lt => f
  | Gt => f + 1
  | Eq => if Z.even f then f else f + 1
  end.

Definition round (x : Q) (ndigits : Z) : Q :=
  let scale := inject_Z (10 ^ ndigits) in
  Qred (inject_Z (round_half_even (x * scale)) / scale).

Definition trunc (x : Q) : Z := Z.quot (Qnum x) (Zpos (Qden x)).

#[export] Instance exact : PyFloat Q :=
  {| truediv_int := div; mul_int := mul; round_ndigits := round; trunc_int := trunc |}.
End ExactArith.

Module Sample.
Import ExactArith.

Definition API_KEY : string := "RGAPI-0".

Definition perks_table : list perk :=
  [ {| perk_id := 8005;
       iconPath := "/lol-game-data/assets/v1/perk-images/Styles/Precision/PressTheAttack/PressTheAttack.png" |};
    {| perk_id := 8112;
       iconPath := "/lol-game-data/assets/v1/perk-images/Styles/Domination/Electrocute/Electrocute.png" |} ].

Definition perks_api (k : nat) : list perk := perks_table.

Definition fromtimestamp_date (ms : Z) : string := "2021-11-24".

(** A participant of the payload. *)
Definition player (champion position : string) (won : bool) (k d a : Z) : participant Q :=
  {| raw := {| championName := champion; teamPosition := position; win := won;
               kills := k; deaths := d; assists := a;
               totalMinionsKilled := 150; neutralMinionsKilled := 12;
               visionScore := 20; goldEarned := 11000;
               totalDamageDealtToChampions := 18000;
               summoner1Id := 4; summoner2Id := 14;
               styles := [ {| style := 8000; selections := [8005; 9111; 9104; 8014] |};
                           {| style := 8100; selections := [8139; 8135] |} ];
               item0 := 10; item1 := 11; item2 := 12; item3 := 13;
               item4 := 14; item5 := 15; item6 := 16 |};
     kda := None; summoner_spell_1 := None; summoner_spell_2 := None;
     rune_primary := None; rune_secondary := None; items := None |}.

Definition ten_players : list (participant Q) :=
  [ player "Garen" "TOP" true 7 0 5; player "LeeSin" "JUNGLE" true 4 3 9;
    player "Ahri" "MIDDLE" true 9 2 6; player "Jinx" "BOTTOM" true 11 4 3;
    player "Thresh" "UTILITY" true 1 5 17; player "Darius" "TOP" false 3 6 2;
    player "Elise" "JUNGLE" false 5 7 4; player "Zed" "MIDDLE" false 6 8 1;
    player "Ezreal" "BOTTOM" false 2 6 5; player "Lulu" "UTILITY" false 0 5 8 ].

(** A match payload with the given mode, queue and duration. *)
Definition payload (id mode : string) (queue seconds : Z) : match_json Q :=
  {| matchId := id;
     info := {| gameMode := mode; queueId := queue; gameDuration := seconds;
                gameCreation := 1637712000000; gameVersion := "11.23.409.111";
                participants := ten_players; matchups := None |};
     player_summary := None; date := None; patch := None; match_mode := None |}.

Definition ok (m : match_json Q) : response (match_json Q) :=
  {| status := 200; retry_after := None; json := m |}.

Definition rate_limited (secs : Z) : response (match_json Q) :=
  {| status := 429; retry_after := Some secs; json := payload "" "" 0 0 |}.

Definition url_of (match_id : string) : string :=
  match_url API_KEY "EUROPE" match_id.

(** The remote: [EUW1_1] is a ranked match served at once, [EUW1_2] the
    same after two rate-limit responses, [EUW1_3] is rate limited every
    time, [EUW1_4] is a custom match (queue 0), [EUW1_5] an ARAM match. *)
Definition match_api (url : string) (k : nat) : response (match_json Q) :=
  if decide (url = url_of "EUW1_1") then ok (payload "EUW1_1" "CLASSIC" 420 1805)
  else if decide (url = url_of "EUW1_2") then
    match k with
    | 0%nat | 1%nat => rate_limited 1
    | _ => ok (payload "EUW1_2" "CLASSIC" 420 1500)
    end
  else if decide (url = url_of "EUW1_4") then ok (payload "EUW1_4" "CLASSIC" 0 1200)
  else if decide (url = url_of "EUW1_5") then ok (payload "EUW1_5" "ARAM" 450 900)
  else rate_limited 1.

(** The requester is the first participant; the summary is the annotated
    participant itself. *)
Definition get_participant_number (m : match_json Q) (puuid : string) : res Z := Ok 0.

Definition get_preview_stats (m : match_json Q) : res (participant Q) :=
  py_key "player_summary" (player_summary m).

Definition empty_stat : stat Q := {| total := 0; per_min := NInt 0; per_match := NInt 0 |}.

Definition empty_role : role :=
  {| role_num := 0; role_wins := 0; role_losses := 0; role_win_rate := 0 |}.

(** A [Summoner] row before any match is folded. *)
Definition fresh_db : Summoner Q :=
  {| matches := 0;
     minutes := 0;
     stats := {| stat_kills := empty_stat; stat_deaths := empty_stat;
                 stat_assists := empty_stat; stat_minions := empty_stat;
                 stat_vision := empty_stat |};
     roles := list_to_map [("top", empty_role); ("jungle", empty_role);
                           ("middle", empty_role); ("bottom", empty_role);
                           ("utility", empty_role)];
     champions := ∅ |}.

Definition preview (url puuid : string) : io (match_json Q) :=
  get_match_preview match_api perks_api fromtimestamp_date
    get_participant_number get_preview_stats url puuid.

Definition preview_list (match_ids : list string) (summoner_db : Summoner Q) (puuid : string)
    : io (Summoner Q * list (match_json Q)) :=
  get_match_preview_list API_KEY match_api perks_api fromtimestamp_date
    get_participant_number get_preview_stats match_ids summoner_db puuid.

(** Two matches to fold, each with the participant to fold. *)
Definition two_folds : list (match_json Q * participant Q) :=
  [ (payload "EUW1_1" "CLASSIC" 420 1805, player "Garen" "TOP" true 7 0 5);
    (payload "EUW1_2" "CLASSIC" 420 1500, player "Ahri" "MIDDLE" false 4 3 9) ].

(** The row after one match, with Garen played once and won. *)
Definition garen_db : Summoner Q :=
  {| matches := 1;
     minutes := 30;
     stats := stats fresh_db;
     roles := roles fresh_db;
     champions :=
       {[ "Garen" := {| ch_num := 1; ch_kills := 7; ch_assists := 5; ch_deaths := 0;
                        ch_kda := NInt 12; ch_wins := 1; ch_losses := 0;
                        ch_win_rate := NInt 100; ch_play_rate := NFloat (1 # 1);
                        ch_minions := 162; ch_vision := 20; ch_gold := 11000;
                        ch_damage := 18000; ch_last_played := "2021-11-23" |} ]} |}.

(** An ARAM match as [get_match_preview] hands it to the fold: with the
    summary of the requester. *)
Definition aram_preview : match_json Q :=
  {| matchId := "EUW1_5";
     info := info (payload "EUW1_5" "ARAM" 450 900);
     player_summary := Some (player "Garen" "" true 7 0 5);
     date := Some "2021-11-24"; patch := Some "11.23.1"; match_mode := Some "ARAM" |}.

(** The outcome and the trace of fetching [EUW1_1] from a fresh start. *)
Definition fetched_1 : match_json Q :=
  match fst (preview (url_of "EUW1_1") "puuid" []) with
  | Ok m => m
  | Raise _ => payload "" "" 0 0
  end.

Definition trace_1 : trace := snd (preview (url_of "EUW1_1") "puuid" []).

(** A league endpoint that answers 429 twice, with two seconds to wait,
    and then serves the entries. *)
Definition league_api (url : string) (k : nat) : response (list string) :=
  match k with
  | 0%nat | 1%nat => {| status := 429; retry_after := Some 2; json := [] |}
  | _ => {| status := 200; retry_after := None; json := ["RANKED_SOLO_5x5"] |}
  end.

(** A ranked match as handed to the fold, played on Garen in the top
    lane and won or lost. *)
Definition top_preview (id : string) (won : bool) : match_json Q :=
  {| matchId := id;
     info := info (payload id "CLASSIC" 420 1800);
     player_summary := Some (player "Garen" "TOP" won 5 2 5);
     date := Some "2021-11-24"; patch := Some "11.23.1"; match_mode := Some "Ranked Solo" |}.
End Sample.

(** ** Vocabulary of the properties *)

(** The sum of [f] over a list. *)
Definition sum_of {A : Type} (f : A → Z) (l : list A) : Z :=
  foldr (fun a acc => f a + acc) 0 l.

Section Vocabulary.
Context `{PyFloat F}.

(** What one match contributes to a tracked stat, in the words of the
    specification: its kills, deaths, assists, vision score, and for the
    minions the lane minions plus the neutral minions. *)
Definition contribution (k : stat_key) (player_json : participant F) : Z :=
  match k with
  | Kills => kills player_json
  | Deaths => deaths player_json
  | Assists => assists player_json
  | Minions => totalMinionsKilled player_json + neutralMinionsKilled player_json
  | Vision => visionScore player_json
  end.

(** No division of a sequence of calls of [add_database_ranked_stats] is
    by zero: after each call the [minutes] and [matches] counters, which
    the call divides by, are not zero. *)
Fixpoint denominators_nonzero (matches0 minutes0 : Z)
    (ms : list (match_json F * participant F)) : Prop :=
  match ms with
  | [] => True
  | (m, _) :: rest =>
      minutes0 + match_minutes m ≠ 0 ∧ matches0 + 1 ≠ 0
      ∧ denominators_nonzero (matches0 + 1) (minutes0 + match_minutes m) rest
  end.

(** The KDA in the words of the specification:
    [round((kills + assists) / deaths, 2)], and [kills + assists] when
    [deaths] is zero. *)
Definition kda_by_spec (kills' assists' deaths' : Z) : number F :=
  if decide (deaths' = 0) then NInt (kills' + assists')
  else NFloat (round_ndigits (truediv_int (kills' + assists') deaths') 2).

(** [round(total / n, 2)] as stored in a derived field. *)
Definition fresh_rate (total' n : Z) : number F :=
  NFloat (round_ndigits (truediv_int total' n) 2).

(** The participant that the fold pass folds for a match: the player
    summary of a CLASSIC match with a non-empty position; [None] for a match
    the pass skips. *)
Definition folded (m : match_json F) : option (participant F) :=
  match player_summary m with
  | Some player =>
      if bool_decide (gameMode (info m) = "CLASSIC")
         && negb (bool_decide (lower (teamPosition player) = ""))
      then Some player else None
  | None => None
  end.

(** Every derived field of the row is the fresh rounded quotient of the
    current total by the current minutes, or matches. *)
Definition rates_fresh (summoner_db : Summoner F) : Prop :=
  ∀ k, per_min (get_stat k (stats summoner_db))
       = fresh_rate (total (get_stat k (stats summoner_db))) (minutes summoner_db)
       ∧ per_match (get_stat k (stats summoner_db))
         = fresh_rate (total (get_stat k (stats summoner_db))) (matches summoner_db).

Variable fromtimestamp_date : Z → string.


End Vocabulary.

(** The sum of [f] over the values of a dictionary. *)
Definition sum_map {A : Type} (f : A → Z) (m : gmap string A) : Z :=
  map_fold (fun _ x acc => f x + acc) 0 m.

(** The counters of a row agree: [matches] is the number of matches counted
    in the role buckets and the number counted in the champion entries, and
    every bucket and every entry counts as many matches as wins and losses
    together. *)
Definition counts_consistent {F : Type} (summoner_db : Summoner F) : Prop :=
  matches summoner_db = sum_map role_num (roles summoner_db)
  ∧ matches summoner_db = sum_map ch_num (champions summoner_db)
  ∧ map_Forall (fun _ bucket => role_num bucket = role_wins bucket + role_losses bucket)
               (roles summoner_db)
  ∧ map_Forall (fun _ entry => ch_num entry = ch_wins entry + ch_losses entry)
               (champions summoner_db).

(** ** The match cache of [helpers.py] *)

(** The outcome of [Match.objects.get] and of code that stops on its
    exceptions. *)
Inductive db_outcome (A : Type) : Type :=
| Found (a : A)
| DoesNotExist
| MultipleObjectsReturned.
Arguments Found {A} a.
Arguments DoesNotExist {A}.
Arguments MultipleObjectsReturned {A}.

Section MatchCache.
Context {J : Type}.

(** A row of the [Match] table: the match id, the summoner, and the summary;
    [None] is the empty dictionary that [summary_json__exact={}] looks for
    (a summary that [save_summaries_to_db] writes has the key ["metadata"],
    so it is not the empty dictionary).
    The table is the list of its rows, in the order of their creation, and
    the position of a row is its primary key. *)
Record match_row : Type := {
  row_match_id : string;
  row_summoner : string;
  summary_json : option J
}.

(** [match["metadata"]["matchId"]] of a summary. *)
Variable matchId_of : J → string.
(** The summary of a row created without one: the default of the field in
    [api/models.py], which is not among the sources. *)
Variable default_summary_json : option J.

Definition row_is (match_id summoner : string) (r : match_row) : bool :=
  bool_decide (row_match_id r = match_id) && bool_decide (row_summoner r = summoner).

Definition summary_is_empty (r : match_row) : bool :=
  match summary_json r with
  | None => true
  | Some _ => false
  end.

(** [Match.objects.filter(match_id=match, summoner=summoner_name).exists()]. *)
Definition match_exists (table : list match_row) (match_id summoner : string) : bool :=
  existsb (row_is match_id summoner) table.

(** [Match.objects.filter(match_id=match, summoner=summoner_name,
    summary_json__exact={}).exists()]. *)
Definition empty_summary_exists (table : list match_row) (match_id summoner : string) : bool :=
  existsb (fun r => row_is match_id summoner r && summary_is_empty r) table.

(** [Match(match_id=match, summoner=summoner_name)]. *)
Definition new_match_row (summoner_name match_id : string) : match_row :=
  {| row_match_id := match_id; row_summoner := summoner_name;
     summary_json := default_summary_json |}.

(** The loop of [add_matches_to_db]: a row for every id up to the first one
    that the table holds already, where the loop breaks. *)
Fixpoint add_match_bulk_list (table : list match_row) (matchlist : list string)
    (summoner_name : string) : list match_row :=
  match matchlist with
  | [] => []
  | match_id :: rest =>
      if match_exists table match_id summoner_name then []
      else new_match_row summoner_name match_id
           :: add_match_bulk_list table rest summoner_name
  end.

(** [add_matches_to_db]: [bulk_create] appends the rows of the loop. *)
Definition add_matches_to_db (table : list match_row) (matchlist : list string)
    (summoner_name : string) : list match_row :=
  table ++ add_match_bulk_list table matchlist summoner_name.

(** The loop of [find_summaries_not_in_db], with the list built so far. *)
Fixpoint find_summaries_loop (table : list match_row) (summoner_name : string)
    (matchlist : list string) (summary_not_in_database : list string) : list string :=
  match matchlist with
  | [] => summary_not_in_database
  | match_id :: rest =>
      if empty_summary_exists table match_id summoner_name then
        let summary_not_in_database' := summary_not_in_database ++ [match_id] in
        if decide (length summary_not_in_database' = 7%nat) then summary_not_in_database'
        else find_summaries_loop table summoner_name rest summary_not_in_database'
      else find_summaries_loop table summoner_name rest summary_not_in_database
  end.

(** [find_summaries_not_in_db]. *)
Definition find_summaries_not_in_db (table : list match_row) (matchlist : list string)
    (summoner_name : string) : list string :=
  find_summaries_loop table summoner_name matchlist [].

(** The primary keys of the rows of a match and a summoner, counted from
    [base]. *)
Fixpoint matching_pks (base : nat) (table : list match_row) (match_id summoner : string)
    : list nat :=
  match table with
  | [] => []
  | r :: rest =>
      if row_is match_id summoner r then base :: matching_pks (S base) rest match_id summoner
      else matching_pks (S base) rest match_id summoner
  end.

(** [Match.objects.get(match_id=..., summoner=...)]: the one row, by its
    primary key; no row and several rows are the two exceptions. *)
Definition objects_get (table : list match_row) (match_id summoner : string)
    : db_outcome nat :=
  match matching_pks 0 table match_id summoner with
  | [pk] => Found pk
  | [] => DoesNotExist
  | _ :: _ :: _ => MultipleObjectsReturned
  end.

(** The loop of [save_summaries_to_db]: the row of each summary, with the
    summary to write. *)
Fixpoint bulk_save_summary_list (table : list match_row) (match_summary_list : list J)
    (summoner_name : string) : db_outcome (list (nat * J)) :=
  match match_summary_list with
  | [] => Found []
  | m :: rest =>
      match objects_get table (matchId_of m) summoner_name with
      | Found pk =>
          match bulk_save_summary_list table rest summoner_name with
          | Found objects => Found ((pk, m) :: objects)
          | DoesNotExist => DoesNotExist
          | MultipleObjectsReturned => MultipleObjectsReturned
          end
      | DoesNotExist => DoesNotExist
      | MultipleObjectsReturned => MultipleObjectsReturned
      end
  end.

(** [Match.objects.bulk_update(objects, ["summary_json"])]: one UPDATE with
    a CASE over the primary keys, so a row takes the summary of the first
    object that has its key and the rows of no object stay as they are. *)
Definition bulk_update (table : list match_row) (objects : list (nat * J))
    : list match_row :=
  imap (fun pk r =>
          match List.find (fun object => Nat.eqb (fst object) pk) objects with
          | Some object =>
              {| row_match_id := row_match_id r; row_summoner := row_summoner r;
                 summary_json := Some (snd object) |}
          | None => r
          end) table.

(** [save_summaries_to_db]: the table after the update, or the exception
    of the [get] that stopped the loop before anything was written. *)
Definition save_summaries_to_db (table : list match_row) (match_summary_list : list J)
    (summoner_name : string) : db_outcome (list match_row) :=
  match bulk_save_summary_list table match_summary_list summoner_name with
  | Found objects => Found (bulk_update table objects)
  | DoesNotExist => DoesNotExist
  | MultipleObjectsReturned => MultipleObjectsReturned
  end.

(** No two rows of the table are of the same match and summoner. *)
Definition rows_unique (table : list match_row) : Prop :=
  NoDup (map (fun r => (row_match_id r, row_summoner r)) table).
End MatchCache.
Arguments match_row J : clear implicits.

(** ** The home page of [views.py] *)

(** What a view returns: a redirect to a URL or a rendered template. *)
Inductive http_response : Type :=
| Redirect (url : string)
| Render (template : string).

(** [a and b] on two strings: [a] when it is empty, [b] otherwise. *)
Definition py_and_str (a b : string) : string :=
  match a with
  | EmptyString => a
  | String _ _ => b
  end.

(** [index]: [request.POST] is the dictionary of the posted form. *)
Definition index (POST : gmap string string) : res http_response :=
  if bool_decide (is_Some (POST !! py_and_str "summoners_name" "server")) then
    server ← py_key "server" (POST !! "server");
    summoners_name ← py_key "summoners_name" (POST !! "summoners_name");
    mret (Redirect ("/" +:+ server +:+ "/" +:+ summoners_name +:+ "/"))
  else mret (Render "api/index.html").

(** ** The rows that [create_user_db] creates *)

(** The [stats] and [roles] that [create_user_db] passes to
    [Summoner.objects.create]; the other columns take the defaults of
    [api/models.py], which is not among the sources. The roles are keyed
    in capitals there, and so are the keys of a bucket (["NUM"],
    ["WIN_RATE"], ["WINS"], ["LOSSES"]), which the record [role] does not
    tell from the lower-case keys that the fold loop reads. *)
Definition create_user_db {F : Type} (default_matches default_minutes : Z)
    (default_champions : gmap string (champion_data F)) : Summoner F :=
  let zero_stat := {| total := 0; per_min := NInt 0; per_match := NInt 0 |} in
  let zero_role := {| role_num := 0; role_win_rate := 0; role_wins := 0; role_losses := 0 |} in
  {| matches := default_matches;
     minutes := default_minutes;
     stats := {| stat_kills := zero_stat; stat_deaths := zero_stat;
                 stat_assists := zero_stat; stat_minions := zero_stat;
                 stat_vision := zero_stat |};
     roles := <["TOP" := zero_role]> (<["JUNGLE" := zero_role]> (<["MIDDLE" := zero_role]>
                (<["BOTTOM" := zero_role]> (<["UTILITY" := zero_role]> ∅))));
     champions := default_champions |}.

(** ** Ranks: [get_summoner_league], [get_players_ranks], [match_summary] *)

(** [round(x)] of a float, with no number of digits: an int. *)
Class PyRound (F : Type) : Type := { round_int : F → Z }.

Module League.
(** One league entry of the remote API (the keys the code reads); [rank]
    is [None] for a JSON null. *)
Record entry : Type := {
  queueType : string;
  tier : string;
  rank : option string;
  wins : Z;
  losses : Z
}.

(** A value of the dictionary that [get_summoner_league] returns: the
    default [{"tier": "Unranked"}], or an entry with its [win_rate]. *)
Inductive json : Type :=
| Unranked
| Ranked (e : entry) (win_rate : Z).
End League.

Module Detail.
(** A participant of the match that [match_summary] is given (the keys it
    reads), and the [tier] that [get_players_ranks] adds. *)
Record participant : Type := {
  summonerId : string;
  totalMinionsKilled : Z;
  neutralMinionsKilled : Z;
  tier : option string
}.

(** [match_json] as [match_summary] receives it. *)
Record info : Type := {
  gameDuration : Z;
  gameCreation : Z;
  queueId : Z;
  participants : list participant;
  teams : list bool
}.

(** The same dictionary as [match_summary] returns it: the duration and
    the creation time are strings, and so is the [win] of each team. *)
Record summary : Type := {
  duration : string;
  creation : string;
  queue : Z;
  players : list participant;
  results : list string
}.
End Detail.

Section Ranks.
Context `{PyFloat F} `{PyRound F}.
Variable API_KEY : string.
(** The league endpoint: what the [k]-th GET of a URL answers. *)
Variable league_api : string → nat → response (list League.entry).
Variable fromtimestamp_date : Z → string.
(** [str(timedelta(seconds=n))]. *)
Variable timedelta_str : Z → string.

(** The [for queue in summoner_league_list] loop of [get_summoner_league],
    from the values of [solo] and [flex] so far: every entry gets its
    [win_rate], whatever its queue, and the last entry of a queue is the
    one kept. *)
Fixpoint summoner_league_loop (summoner_league_list : list League.entry)
    (solo flex : League.json) : res (League.json * League.json) :=
  match summoner_league_list with
  | [] => mret (solo, flex)
  | queue_entry :: rest =>
      ratio ← py_truediv (League.wins queue_entry)
                         (League.wins queue_entry + League.losses queue_entry);
      let queue_entry' := League.Ranked queue_entry (round_int (mul_int ratio 100)) in
      if decide (League.queueType queue_entry = "RANKED_SOLO_5x5")
      then summoner_league_loop rest queue_entry' flex
      else if decide (League.queueType queue_entry = "RANKED_FLEX_SR")
      then summoner_league_loop rest solo queue_entry'
      else summoner_league_loop rest solo flex
  end.

(** [summoner_league_json] of a summoner that was found: the pair of the
    values under ["RANKED_SOLO_5x5"] and ["RANKED_FLEX_SR"]. *)
Definition summoner_league_json (summoner_league_list : list League.entry)
    : res (League.json * League.json) :=
  summoner_league_loop summoner_league_list League.Unranked League.Unranked.

(** The URL of the league entries of a summoner. *)
Definition league_url (server summoner_id : string) : string :=
  "https://" +:+ server +:+ ".api.riotgames.com/lol/league/v4/entries/by-summoner/"
    +:+ summoner_id +:+ "?api_key=" +:+ API_KEY.

(** The [try]/[except StopIteration] of [get_players_ranks]: the tier and
    the rank of the first entry of the queue of the match, flex for queue
    440 and solo otherwise, or of [{"tier": "Unranked", "rank": None}]. *)
Definition pick_league (queue_id : Z) (leagues : list League.entry) : string * option string :=
  let wanted := if decide (queue_id = 440) then "RANKED_FLEX_SR" else "RANKED_SOLO_5x5" in
  match List.find (fun item => bool_decide (League.queueType item = wanted)) leagues with
  | Some item => (League.tier item, League.rank item)
  | None => ("Unranked", None)
  end.

(** The label written to [participant["tier"]]. *)
Definition tier_label (picked : string * option string) : string :=
  match snd picked with
  | None => fst picked
  | Some division => fst picked +:+ " " +:+ division
  end.

(** [participant["tier"] = label]. *)
Definition set_tier (p : Detail.participant) (label : string) : Detail.participant :=
  {| Detail.summonerId := Detail.summonerId p;
     Detail.totalMinionsKilled := Detail.totalMinionsKilled p;
     Detail.neutralMinionsKilled := Detail.neutralMinionsKilled p;
     Detail.tier := Some label |}.

(** The [for leagues in summoners_leagues_list] loop of
    [get_players_ranks], from the value of [current_player]: the label of
    the [k]-th answer goes to the [k]-th participant. *)
Fixpoint assign_tiers (queue_id : Z) (summoners_leagues_list : list (list League.entry))
    (current_player : nat) (participants : list Detail.participant)
    : res (list Detail.participant) :=
  match summoners_leagues_list with
  | [] => mret participants
  | leagues :: rest =>
      let label := tier_label (pick_league queue_id leagues) in
      p ← py_getitem participants (Z.of_nat current_player);
      assign_tiers queue_id rest (S current_player)
        (<[current_player := set_tier p label]> participants)
  end.

(** [get_players_ranks]: one fetch of the league entries for each id,
    gathered, then the loop. *)
Definition get_players_ranks (server : string) (match_json : Detail.summary)
    (summoner_id_list : list string) : io Detail.summary :=
  summoners_leagues_list ←
    gather (map (fun summoner_id => get_leagues_json league_api (league_url server summoner_id))
                summoner_id_list);
  players' ← lift (assign_tiers (Detail.queue match_json) summoners_leagues_list 0
                                (Detail.players match_json));
  mret {| Detail.duration := Detail.duration match_json;
          Detail.creation := Detail.creation match_json;
          Detail.queue := Detail.queue match_json;
          Detail.players := players';
          Detail.results := Detail.results match_json |}.


End Ranks.

Section RanksVocabulary.
Context `{PyFloat F} `{PyRound F}.

(** [round(wins / (wins + losses) * 100)] of a league entry. *)
Definition league_win_rate (e : League.entry) : Z :=
  round_int (mul_int (truediv_int (League.wins e) (League.wins e + League.losses e)) 100).

(** The value kept for a queue: the last entry of that queue in the list,
    with its win rate, or the default. *)
Definition kept_league (queue_type : string) (l : list League.entry) : League.json :=
  match last (List.filter (fun e => bool_decide (League.queueType e = queue_type)) l) with
  | Some e => League.Ranked e (league_win_rate e)
  | None => League.Unranked
  end.
End RanksVocabulary.

(** ** Further concrete cases *)

Module Cases.
Import ExactArith.

(** [round(x)] on the exact rationals: to the nearest integer, a tie to
    the even one. *)
#[export] Instance exact_round : PyRound Q := {| round_int := round_half_even |}.

Definition not_found : response (match_json Q) :=
  {| status := 404; retry_after := None; json := Sample.payload "" "" 0 0 |}.

Definition rate_limited_without_header : response (match_json Q) :=
  {| status := 429; retry_after := None; json := Sample.payload "" "" 0 0 |}.

(** A remote on which [EUW1_6] is not found and [EUW1_7] is rate limited
    without a [Retry-After] header; the other matches are those of the
    sample remote. *)
Definition match_api (url : string) (k : nat) : response (match_json Q) :=
  if decide (url = Sample.url_of "EUW1_6") then not_found
  else if decide (url = Sample.url_of "EUW1_7") then rate_limited_without_header
  else Sample.match_api url k.

(** A row of the match cache for the summoner Faker. *)
Definition cached (match_id : string) (summary : option (match_json Q))
    : match_row (match_json Q) :=
  {| row_match_id := match_id; row_summoner := "Faker"; summary_json := summary |}.

(** A cache with two matches of Faker, neither with a summary. *)
Definition table : list (match_row (match_json Q)) :=
  [cached "EUW1_1" None; cached "EUW1_2" None].

(** A cache with every summary saved. *)
Definition full_table : list (match_row (match_json Q)) :=
  [cached "EUW1_1" (Some Sample.fetched_1)].

(** A match list as the remote sends it, the latest match first. *)
Definition matchlist : list string := ["EUW1_4"; "EUW1_3"; "EUW1_2"; "EUW1_1"].

Definition eight_ids : list string :=
  ["EUW1_8"; "EUW1_7"; "EUW1_6"; "EUW1_5"; "EUW1_4"; "EUW1_3"; "EUW1_2"; "EUW1_1"].

Definition league_entry (queue_type tier division : string) (wins losses : Z) : League.entry :=
  {| League.queueType := queue_type; League.tier := tier; League.rank := Some division;
     League.wins := wins; League.losses := losses |}.

(** The league entries of a summoner ranked in both queues. *)
Definition both_queues : list League.entry :=
  [ league_entry "RANKED_FLEX_SR" "GOLD" "II" 10 10;
    league_entry "RANKED_SOLO_5x5" "PLATINUM" "IV" 30 20 ].

(** A league endpoint that serves [both_queues] for the summoner [id-1]
    and no entry for any other. *)
Definition league_api (url : string) (k : nat) : response (list League.entry) :=
  if decide (url = league_url Sample.API_KEY "euw1" "id-1")
  then {| status := 200; retry_after := None; json := both_queues |}
  else {| status := 200; retry_after := None; json := [] |}.


End Cases.

(** * Properties *)

(** ** Strings and traces *)

Example split_version : split_char "." "11.23.409.111" = ["11"; "23"; "409"; "111"].
Proof. reflexivity. Qed.

Example patch_of_version : preview_patch "11.23.409.111" = "11.23.1".
Proof. reflexivity. Qed.

Example after_styles :
  after_first "Styles/" "/lol-game-data/assets/v1/perk-images/Styles/Precision/Conqueror/Conqueror.png"
  = Ok "Precision/Conqueror/Conqueror.png".
Proof. reflexivity. Qed.

Lemma lower_empty (s : string) : lower s = EmptyString ↔ s = EmptyString.
Proof. destruct s; simpl; split; intros Hs; first [done | discriminate Hs]. Qed.

Lemma gets_of_app (url : string) (t1 t2 : trace) :
  gets_of url (t1 ++ t2) = (gets_of url t1 + gets_of url t2)%nat.
Proof.
  induction t1 as [|[u|s] t1 IH]; simpl; [done | | done].
  case_decide; lia.
Qed.

Lemma gets_of_snoc_get (url : string) (t : trace) :
  gets_of url (t ++ [EvGet url]) = S (gets_of url t).
Proof. rewrite gets_of_app. simpl. case_decide; [lia | done]. Qed.

Lemma gets_of_snoc_sleep (url : string) (t : trace) (secs : Z) :
  gets_of url (t ++ [EvSleep secs]) = gets_of url t.
Proof. rewrite gets_of_app. simpl. lia. Qed.

(** ** The resolvers *)

(** Splits a code along its binary digits until the [match] of a resolver
    either falls through to its default or names the code. *)
Ltac case_on_code p :=
  repeat (destruct p as [p|p|]; try reflexivity).

Lemma get_summoner_spell_default (summoner_key : Z) :
  summoner_key ∉ known_summoner_keys → get_summoner_spell summoner_key = "summoner_empty".
Proof.
  intros Hk. destruct summoner_key as [|p|p]; [reflexivity | | reflexivity].
  case_on_code p; exfalso; apply Hk; unfold known_summoner_keys; set_solver.
Qed.

Lemma get_rune_secondary_default (rune_id : Z) :
  rune_id ∉ known_secondary_styles → get_rune_secondary rune_id = "7204_resolve".
Proof.
  intros Hk. destruct rune_id as [|p|p]; [reflexivity | | reflexivity].
  case_on_code p; exfalso; apply Hk; unfold known_secondary_styles; set_solver.
Qed.

Lemma get_match_mode_default (queue_id : Z) :
  queue_id ∉ known_queue_ids → get_match_mode queue_id = "Special".
Proof.
  intros Hk. destruct queue_id as [|p|p]; [reflexivity | | reflexivity].
  case_on_code p; exfalso; apply Hk; unfold known_queue_ids; set_solver.
Qed.

Lemma get_region_by_platform_listed (platform : string) :
  platform ∈ americas_platforms ++ europe_platforms ++ asia_platforms →
  ∃ region, get_region_by_platform platform = Ok region
            ∧ region ∈ ["AMERICAS"; "EUROPE"; "ASIA"].
Proof.
  intros Hin. unfold get_region_by_platform.
  repeat case_bool_decide;
    try (eexists; split; [reflexivity | rewrite !elem_of_cons; by eauto]).
  exfalso. rewrite !elem_of_app in Hin. tauto.
Qed.

Lemma get_region_by_platform_unlisted (platform : string) :
  platform ∉ americas_platforms ++ europe_platforms ++ asia_platforms →
  get_region_by_platform platform = Raise (UnboundLocalError "region").
Proof.
  intros Hout. unfold get_region_by_platform.
  repeat case_bool_decide; try done; exfalso; apply Hout; rewrite !elem_of_app; tauto.
Qed.

Example region_of_euw : get_region_by_platform "EUW1" = Ok "EUROPE".
Proof. reflexivity. Qed.

Example region_of_kr : get_region_by_platform "KR" = Ok "ASIA".
Proof. reflexivity. Qed.

Example region_of_na : get_region_by_platform "NA1" = Ok "AMERICAS".
Proof. reflexivity. Qed.

Section PerksTableFacts.
Variable perks_api : nat → list perk.

Lemma get_rune_primary_trace (rune_id : Z) (t : trace) :
  snd (get_rune_primary perks_api rune_id t) = t ++ [EvGet perks_url].
Proof.
  unfold get_rune_primary, mbind, io_bind, requests_get_perks, lift.
  by destruct (List.find _ _).
Qed.

Lemma get_rune_primary_found (rune_id : Z) (t : trace) (item : perk) (path : string) :
  List.find (fun item => bool_decide (perk_id item = rune_id)) (perks_api (gets_of perks_url t))
    = Some item →
  after_first "Styles/" (iconPath item) = Ok path →
  get_rune_primary perks_api rune_id t = (Ok path, t ++ [EvGet perks_url]).
Proof.
  intros Hfind Hpath.
  unfold get_rune_primary, mbind, io_bind, requests_get_perks, lift.
  by rewrite Hfind, Hpath.
Qed.

Lemma get_rune_primary_unknown (rune_id : Z) (t : trace) :
  List.find (fun item => bool_decide (perk_id item = rune_id)) (perks_api (gets_of perks_url t))
    = None →
  get_rune_primary perks_api rune_id t = (Raise TypeError, t ++ [EvGet perks_url]).
Proof.
  intros Hfind.
  unfold get_rune_primary, mbind, io_bind, requests_get_perks, lift.
  by rewrite Hfind.
Qed.

(** C7, as the code has it: [get_rune_primary] fetches the perks table on
    every call and keeps nothing between calls, so a sequence of [n]
    calls performs exactly [n] remote fetches of the table. *)
Theorem perks_table_fetched_on_every_call (rune_ids : list Z) (t : trace) :
  gets_of perks_url (trace_after_rune_calls perks_api rune_ids t)
  = (gets_of perks_url t + length rune_ids)%nat.
Proof.
  unfold trace_after_rune_calls.
  revert t. induction rune_ids as [|rune_id rune_ids IH]; intros t; simpl.
  - lia.
  - rewrite IH, get_rune_primary_trace, gets_of_snoc_get. lia.
Qed.
End PerksTableFacts.

(** C7, the claim as stated fails: two calls of [get_rune_primary] for the
    same rune fetch the perks table twice, not at most once. *)
Lemma perks_table_fetched_twice :
  gets_of perks_url (trace_after_rune_calls Sample.perks_api [8005%Z; 8005%Z] []) = 2%nat
  ∧ ¬ (gets_of perks_url (trace_after_rune_calls Sample.perks_api [8005%Z; 8005%Z] []) ≤ 1)%nat.
Proof. split; [reflexivity | vm_compute; lia]. Qed.

(** C8, as the code has it: the summoner-spell, secondary-rune-style and
    queue-id resolvers return a value for every code and the sentinel for
    every code they do not name; the platform resolver returns a region
    for each of the eleven platforms it lists; the primary-rune resolver
    returns the path after ["Styles/"] whenever the fetched table holds the
    rune id with such an icon path. *)
Theorem resolvers_defined_on_listed_codes :
  (∀ summoner_key, summoner_key ∉ known_summoner_keys →
     get_summoner_spell summoner_key = "summoner_empty")
  ∧ (∀ rune_id, rune_id ∉ known_secondary_styles →
     get_rune_secondary rune_id = "7204_resolve")
  ∧ (∀ queue_id, queue_id ∉ known_queue_ids → get_match_mode queue_id = "Special")
  ∧ (∀ platform, platform ∈ americas_platforms ++ europe_platforms ++ asia_platforms →
     ∃ region, get_region_by_platform platform = Ok region
               ∧ region ∈ ["AMERICAS"; "EUROPE"; "ASIA"])
  ∧ (∀ perks_api rune_id t item path,
     List.find (fun item => bool_decide (perk_id item = rune_id))
               (perks_api (gets_of perks_url t)) = Some item →
     after_first "Styles/" (iconPath item) = Ok path →
     fst (get_rune_primary perks_api rune_id t) = Ok path).
Proof.
  repeat split.
  - apply get_summoner_spell_default.
  - apply get_rune_secondary_default.
  - apply get_match_mode_default.
  - apply get_region_by_platform_listed.
  - intros perks_api rune_id t item path Hfind Hpath.
    by rewrite (get_rune_primary_found _ _ _ _ _ Hfind Hpath).
Qed.

(** C8, the claim as stated fails: a platform outside the listed ones has
    no region, the call raises; and a rune id that the perks table does not
    hold makes the primary-rune resolver raise. *)
Lemma resolvers_raise_on_unlisted_codes :
  get_region_by_platform "PH2" = Raise (UnboundLocalError "region")
  ∧ fst (get_rune_primary Sample.perks_api 1 []) = Raise TypeError.
Proof. split; reflexivity. Qed.

(** ** The aggregate accumulator *)

Section AccumulatorFacts.
Context `{PyFloat F}.
Variable fromtimestamp_date : Z → string.

Lemma py_truediv_nonzero (a b : Z) : b ≠ 0 → py_truediv a b = Ok (truediv_int a b).
Proof. intros Hb. unfold py_truediv. by rewrite decide_False. Qed.

Lemma py_truediv_zero (a : Z) : py_truediv a 0 = Raise ZeroDivisionError.
Proof. reflexivity. Qed.

Lemma fold_stat_returns (s : stat F) (value minutes' matches' : Z) :
  minutes' ≠ 0 → matches' ≠ 0 →
  fold_stat s value minutes' matches'
  = Ok {| total := total s + value;
          per_min := fresh_rate (total s + value) minutes';
          per_match := fresh_rate (total s + value) matches' |}.
Proof.
  intros Hmin Hmat. unfold fold_stat.
  by rewrite (py_truediv_nonzero _ _ Hmin), (py_truediv_nonzero _ _ Hmat).
Qed.

Lemma fold_stat_raises (s : stat F) (value minutes' matches' : Z) :
  minutes' = 0 ∨ matches' = 0 →
  fold_stat s value minutes' matches' = Raise ZeroDivisionError.
Proof.
  intros Hzero. unfold fold_stat, py_truediv.
  destruct (decide (minutes' = 0)); [done|].
  destruct (decide (matches' = 0)); [done|]. tauto.
Qed.

(** One call of [add_database_ranked_stats] that divides by no zero. *)
Lemma add_database_ranked_stats_returns (summoner_db : Summoner F) (m : match_json F)
    (player_json : participant F) :
  minutes summoner_db + match_minutes m ≠ 0 → matches summoner_db + 1 ≠ 0 →
  ∃ summoner_db',
    add_database_ranked_stats summoner_db m player_json = Ok summoner_db'
    ∧ matches summoner_db' = matches summoner_db + 1
    ∧ minutes summoner_db' = minutes summoner_db + match_minutes m
    ∧ roles summoner_db' = roles summoner_db
    ∧ champions summoner_db' = champions summoner_db
    ∧ ∀ k, get_stat k (stats summoner_db')
           = {| total := total (get_stat k (stats summoner_db)) + contribution k player_json;
                per_min := fresh_rate (total (get_stat k (stats summoner_db))
                                       + contribution k player_json)
                                      (minutes summoner_db + match_minutes m);
                per_match := fresh_rate (total (get_stat k (stats summoner_db))
                                         + contribution k player_json)
                                        (matches summoner_db + 1) |}.
Proof.
  intros Hmin Hmat. unfold add_database_ranked_stats.
  rewrite !(fold_stat_returns _ _ _ _ Hmin Hmat). simpl.
  eexists. split; [reflexivity|]. simpl.
  repeat split. by intros [].
Qed.

(** The call raises exactly when one of its two divisors is zero. *)
Lemma add_database_ranked_stats_raises (summoner_db : Summoner F) (m : match_json F)
    (player_json : participant F) :
  minutes summoner_db + match_minutes m = 0 ∨ matches summoner_db + 1 = 0 →
  add_database_ranked_stats summoner_db m player_json = Raise ZeroDivisionError.
Proof.
  intros Hzero. unfold add_database_ranked_stats.
  rewrite !(fold_stat_raises _ _ _ _ Hzero). reflexivity.
Qed.

(** C1: a sequence of folds by [add_database_ranked_stats] in which no
    division is by zero returns; it adds one match and the rounded
    minutes of each match to the counters, adds to the total of every
    tracked stat exactly the contributions of the folded matches (lane
    plus neutral minions for [Minions]), leaves roles and champions
    alone, and after at least one fold every [per_min] and [per_match] is
    the fresh rounded quotient of the current total by the current
    minutes and matches. *)
Theorem ranked_stats_totals_and_rates (summoner_db : Summoner F)
    (ms : list (match_json F * participant F)) :
  denominators_nonzero (matches summoner_db) (minutes summoner_db) ms →
  ∃ summoner_db',
    fold_ranked_stats summoner_db ms = Ok summoner_db'
    ∧ matches summoner_db' = matches summoner_db + Z.of_nat (length ms)
    ∧ minutes summoner_db' = minutes summoner_db + sum_of (fun mp => match_minutes (fst mp)) ms
    ∧ roles summoner_db' = roles summoner_db
    ∧ champions summoner_db' = champions summoner_db
    ∧ (∀ k, total (get_stat k (stats summoner_db'))
            = total (get_stat k (stats summoner_db))
              + sum_of (fun mp => contribution k (snd mp)) ms)
    ∧ (ms ≠ [] →
       ∀ k, per_min (get_stat k (stats summoner_db'))
            = fresh_rate (total (get_stat k (stats summoner_db'))) (minutes summoner_db')
            ∧ per_match (get_stat k (stats summoner_db'))
              = fresh_rate (total (get_stat k (stats summoner_db'))) (matches summoner_db')).
Proof.
  revert summoner_db.
  induction ms as [|[m player_json] rest IH]; intros summoner_db Hnz.
  - exists summoner_db. simpl. repeat split; try lia; try done.
  - destruct Hnz as (Hmin & Hmat & Hrest).
    destruct (add_database_ranked_stats_returns summoner_db m player_json Hmin Hmat)
      as (db1 & Hstep & Hmatches & Hminutes & Hroles & Hchampions & Hstats).
    rewrite <- Hmatches, <- Hminutes in Hrest.
    destruct (IH db1 Hrest) as (db' & Hfold & Hm' & Hmin' & Hr' & Hc' & Htot' & Hrates').
    exists db'. simpl. rewrite Hstep. simpl.
    split; [exact Hfold|].
    split; [lia|]. split; [lia|].
    split; [congruence|]. split; [congruence|].
    split.
    + intros k. rewrite Htot', Hstats. simpl. lia.
    + intros _ k. destruct rest as [|mp rest'].
      * simpl in Hfold. injection Hfold as <-.
        rewrite Hstats, Hmatches, Hminutes. simpl. done.
      * by apply Hrates'.
Qed.

(** A sequence of folds stops with [ZeroDivisionError] at the first match
    after which a divisor is zero. *)
Lemma fold_ranked_stats_raises (summoner_db : Summoner F)
    (ms : list (match_json F * participant F)) :
  ¬ denominators_nonzero (matches summoner_db) (minutes summoner_db) ms →
  fold_ranked_stats summoner_db ms = Raise ZeroDivisionError.
Proof.
  revert summoner_db.
  induction ms as [|[m player_json] rest IH]; intros summoner_db Hz; simpl in *.
  - tauto.
  - destruct (decide (minutes summoner_db + match_minutes m = 0)) as [Hmin|Hmin].
    { by rewrite add_database_ranked_stats_raises by tauto. }
    destruct (decide (matches summoner_db + 1 = 0)) as [Hmat|Hmat].
    { by rewrite add_database_ranked_stats_raises by tauto. }
    destruct (add_database_ranked_stats_returns summoner_db m player_json Hmin Hmat)
      as (db1 & Hstep & Hmatches & Hminutes & _).
    rewrite Hstep. simpl. apply IH. rewrite Hmatches, Hminutes. tauto.
Qed.


Lemma preview_kda_by_spec (player : participant F) :
  preview_kda player = Ok (kda_by_spec (kills player) (assists player) (deaths player)).
Proof.
  unfold preview_kda, kda_by_spec, py_truediv.
  by destruct (decide (deaths player = 0)).
Qed.





(** What [set_champion] leaves alone. *)
Lemma set_champion_frame (summoner_db : Summoner F) (name : string) (entry : champion_data F) :
  matches (set_champion summoner_db name entry) = matches summoner_db
  ∧ minutes (set_champion summoner_db name entry) = minutes summoner_db
  ∧ stats (set_champion summoner_db name entry) = stats summoner_db
  ∧ roles (set_champion summoner_db name entry) = roles summoner_db
  ∧ champions (set_champion summoner_db name entry) !! name = Some entry
  ∧ ∀ other, other ≠ name →
      champions (set_champion summoner_db name entry) !! other
      = champions summoner_db !! other.
Proof.
  simpl. repeat split.
  - apply lookup_insert_eq.
  - intros other Hother. by apply lookup_insert_ne.
Qed.


Lemma kda_by_spec_zero_deaths (kills' assists' : Z) :
  kda_by_spec (F:=F) kills' assists' 0 = NInt (kills' + assists').
Proof. reflexivity. Qed.

Lemma kda_by_spec_some_deaths (kills' assists' deaths' : Z) :
  deaths' ≠ 0 →
  kda_by_spec kills' assists' deaths'
  = NFloat (round_ndigits (truediv_int (kills' + assists') deaths') 2).
Proof. intros Hd. unfold kda_by_spec. by rewrite decide_False. Qed.

Lemma fold_match_skipped (summoner_db : Summoner F) (m : match_json F)
    (player : participant F) :
  player_summary m = Some player →
  gameMode (info m) ≠ "CLASSIC" ∨ teamPosition player = "" →
  fold_match fromtimestamp_date summoner_db m = Ok summoner_db.
Proof.
  intros Hplayer Hskip. unfold fold_match. rewrite Hplayer. simpl.
  destruct Hskip as [Hmode|Hposition].
  - by rewrite bool_decide_false.
  - rewrite Hposition. simpl. by rewrite andb_false_r.
Qed.

(** C5: a match of the batch that carries a player summary and whose game
    mode is not CLASSIC, or whose position is empty, is folded into
    nothing: the loop body returns the very [Summoner] row it was
    given. *)
Theorem skipped_match_leaves_stats_unchanged (summoner_db : Summoner F) (m : match_json F)
    (player : participant F) :
  player_summary m = Some player →
  gameMode (info m) ≠ "CLASSIC" ∨ teamPosition player = "" →
  fold_match fromtimestamp_date summoner_db m = Ok summoner_db.
Proof. apply fold_match_skipped. Qed.

(** A batch of skipped matches leaves the row as it was. *)
Lemma fold_matches_skipped (summoner_db : Summoner F) (ms : list (match_json F)) :
  Forall (fun m => ∃ player, player_summary m = Some player
                    ∧ (gameMode (info m) ≠ "CLASSIC" ∨ teamPosition player = "")) ms →
  fold_matches fromtimestamp_date summoner_db ms = Ok summoner_db.
Proof.
  induction 1 as [|m ms (player & Hplayer & Hskip) _ IH]; simpl; [done|].
  by rewrite (fold_match_skipped _ _ _ Hplayer Hskip).
Qed.

(** A match without player summary stops the loop. *)
Lemma fold_match_without_summary (summoner_db : Summoner F) (m : match_json F) :
  player_summary m = None →
  fold_match fromtimestamp_date summoner_db m = Raise (KeyError "player_summary").
Proof. intros Hnone. unfold fold_match. by rewrite Hnone. Qed.

(** ** The fold pass of a batch *)

Lemma add_database_ranked_stats_inv (summoner_db summoner_db' : Summoner F)
    (m : match_json F) (player_json : participant F) :
  add_database_ranked_stats summoner_db m player_json = Ok summoner_db' →
  matches summoner_db' = matches summoner_db + 1
  ∧ minutes summoner_db' = minutes summoner_db + match_minutes m
  ∧ roles summoner_db' = roles summoner_db
  ∧ champions summoner_db' = champions summoner_db
  ∧ rates_fresh summoner_db'
  ∧ ∀ k, total (get_stat k (stats summoner_db'))
         = total (get_stat k (stats summoner_db)) + contribution k player_json.
Proof.
  intros Hrun.
  destruct (decide (minutes summoner_db + match_minutes m = 0)) as [Hmin|Hmin].
  { rewrite add_database_ranked_stats_raises in Hrun by tauto. discriminate Hrun. }
  destruct (decide (matches summoner_db + 1 = 0)) as [Hmat|Hmat].
  { rewrite add_database_ranked_stats_raises in Hrun by tauto. discriminate Hrun. }
  destruct (add_database_ranked_stats_returns summoner_db m player_json Hmin Hmat)
    as (db1 & Hstep & Hmatches & Hminutes & Hroles & Hchampions & Hstats).
  rewrite Hstep in Hrun. injection Hrun as <-.
  split; [exact Hmatches|]. split; [exact Hminutes|].
  split; [exact Hroles|]. split; [exact Hchampions|]. split.
  - intros k. by rewrite Hstats, Hmatches, Hminutes.
  - intros k. by rewrite Hstats.
Qed.

Lemma add_database_champion_stats_inv (summoner_db summoner_db' : Summoner F)
    (m : match_json F) (player_json : participant F) :
  add_database_champion_stats fromtimestamp_date summoner_db m player_json = Ok summoner_db' →
  ∃ entry, summoner_db' = set_champion summoner_db (championName player_json) entry.
Proof.
  unfold add_database_champion_stats. intros Hrun.
  destruct (champions summoner_db !! championName player_json) as [c|].
  - destruct (champion_kda _ _ _); [|discriminate Hrun]. simpl in Hrun.
    destruct (py_truediv _ (ch_num c + 1)); [|discriminate Hrun]. simpl in Hrun.
    destruct (py_truediv _ (matches summoner_db)); [|discriminate Hrun].
    injection Hrun as <-. by eexists.
  - destruct (champion_kda _ _ _); [|discriminate Hrun]. simpl in Hrun.
    destruct (py_truediv _ (matches summoner_db)); [|discriminate Hrun].
    injection Hrun as <-. by eexists.
Qed.

(** One turn of the loop that returns: either the match is skipped and the
    row is the one given, or its participant is folded. *)
Lemma fold_match_inv (summoner_db summoner_db' : Summoner F) (m : match_json F) :
  fold_match fromtimestamp_date summoner_db m = Ok summoner_db' →
  match folded m with
  | None => summoner_db' = summoner_db
  | Some player =>
      matches summoner_db' = matches summoner_db + 1
      ∧ minutes summoner_db' = minutes summoner_db + match_minutes m
      ∧ rates_fresh summoner_db'
      ∧ ∀ k, total (get_stat k (stats summoner_db'))
             = total (get_stat k (stats summoner_db)) + contribution k player
  end.
Proof.
  unfold fold_match, folded. intros Hrun.
  destruct (player_summary m) as [player|]; [|discriminate Hrun]. simpl in Hrun.
  destruct (bool_decide (gameMode (info m) = "CLASSIC")
            && negb (bool_decide (lower (teamPosition player) = ""))).
  - destruct (roles summoner_db !! lower (teamPosition player)) as [bucket|];
      [|discriminate Hrun]. simpl in Hrun.
    destruct (py_truediv _ (role_num bucket + 1)) as [ratio|]; [|discriminate Hrun].
    simpl in Hrun.
    destruct (add_database_ranked_stats _ m player) as [db2|] eqn:Hranked;
      [|discriminate Hrun]. simpl in Hrun.
    apply add_database_ranked_stats_inv in Hranked
      as (Hmatches & Hminutes & _ & _ & Hfresh & Htotals).
    apply add_database_champion_stats_inv in Hrun as [entry ->].
    simpl in *. repeat split; try done; apply Hfresh.
  - by injection Hrun as <-.
Qed.

(** The fold pass over a batch: the counters and the totals grow by what
    the folded matches contribute and by nothing else, and once a match has
    been folded the derived fields are fresh. *)
Lemma fold_matches_totals_and_rates (summoner_db summoner_db' : Summoner F)
    (ms : list (match_json F)) :
  fold_matches fromtimestamp_date summoner_db ms = Ok summoner_db' →
  matches summoner_db'
  = matches summoner_db + sum_of (fun m => from_option (fun _ => 1) 0 (folded m)) ms
  ∧ minutes summoner_db'
    = minutes summoner_db
      + sum_of (fun m => from_option (fun _ => match_minutes m) 0 (folded m)) ms
  ∧ (∀ k, total (get_stat k (stats summoner_db'))
          = total (get_stat k (stats summoner_db))
            + sum_of (fun m => from_option (contribution k) 0 (folded m)) ms)
  ∧ (rates_fresh summoner_db ∨ Exists (fun m => is_Some (folded m)) ms →
     rates_fresh summoner_db').
Proof.
  revert summoner_db. induction ms as [|m ms IH]; intros summoner_db Hrun; simpl in *.
  - injection Hrun as <-.
    split; [lia|]. split; [lia|]. split; [intros k; lia|].
    intros [Hfresh|Hex]; [done | by apply Exists_nil in Hex].
  - destruct (fold_match fromtimestamp_date summoner_db m) as [db1|] eqn:Hstep;
      [|discriminate Hrun]. simpl in Hrun.
    apply fold_match_inv in Hstep.
    destruct (IH _ Hrun) as (Hmatches & Hminutes & Htotals & Hfresh).
    destruct (folded m) as [player|] eqn:Hfolded; simpl.
    + destruct Hstep as (Hm1 & Hmin1 & Hfresh1 & Htot1).
      split; [lia|]. split; [lia|]. split.
      * intros k. rewrite Htotals, Htot1. lia.
      * intros _. apply Hfresh. by left.
    + subst db1.
      split; [lia|]. split; [lia|]. split.
      * intros k. rewrite Htotals. lia.
      * intros [Hf|Hex]; apply Hfresh; [by left|].
        apply Exists_cons in Hex as [[? Hsome]|Hex]; [congruence | by right].
Qed.

(** A sufficient condition for [denominators_nonzero]: counters that start
    non-negative and matches that each round to a positive number of
    minutes. *)
Lemma denominators_nonzero_of_positive (matches0 minutes0 : Z)
    (ms : list (match_json F * participant F)) :
  0 ≤ matches0 → 0 ≤ minutes0 →
  Forall (fun mp => 0 < match_minutes (fst mp)) ms →
  denominators_nonzero matches0 minutes0 ms.
Proof.
  intros Hmat Hmin Hpos. revert matches0 minutes0 Hmat Hmin.
  induction Hpos as [|[m p] ms Hm _ IH]; intros matches0 minutes0 Hmat Hmin; simpl in *.
  - done.
  - repeat split; [lia | lia | apply IH; lia].
Qed.
End AccumulatorFacts.

(** ** The fetch loop, the enricher and the batch *)

Lemma gather_returns_then_raises {A : Type} (before after : list (io A)) (task : io A)
    (t0 t1 t2 : trace) (results : list A) (e : exn) :
  gather before t0 = (Ok results, t1) →
  task t1 = (Raise e, t2) →
  gather (before ++ task :: after) t0 = (Raise e, t2).
Proof.
  revert t0 results. induction before as [|first before IH]; intros t0 results Hbefore Htask.
  - injection Hbefore as _ <-. simpl. unfold mbind, io_bind. by rewrite Htask.
  - simpl in *. unfold mbind, io_bind in *.
    destruct (first t0) as [[a|e'] t0']; [|discriminate].
    fold (@gather A) in *.
    destruct (gather before t0') as [[others|e'] t0''] eqn:Hothers; [|discriminate].
    injection Hbefore as _ <-.
    by rewrite (IH _ _ Hothers Htask).
Qed.

Section FetchFacts.
Context `{PyFloat F}.
Variable API_KEY : string.
Variable match_api : string → nat → response (match_json F).
Variable perks_api : nat → list perk.
Variable fromtimestamp_date : Z → string.
Variable get_participant_number : match_json F → string → res Z.
Variable get_preview_stats : match_json F → res (participant F).

Local Abbreviation enrich := (enrich_match perks_api fromtimestamp_date get_participant_number
                      get_preview_stats).
Local Abbreviation loop := (get_match_preview_loop match_api perks_api fromtimestamp_date
                    get_participant_number get_preview_stats).
Local Abbreviation fetch := (get_match_preview match_api perks_api fromtimestamp_date
                     get_participant_number get_preview_stats).
Local Abbreviation fetch_list := (get_match_preview_list API_KEY match_api perks_api
                          fromtimestamp_date get_participant_number get_preview_stats).

(** The three ways one turn of the loop goes. *)
Lemma loop_on_200 (n : nat) (url puuid : string) (t : trace) :
  status (match_api url (gets_of url t)) = 200 →
  loop (S n) url puuid t
  = (if bool_decide (queueId (info (json (match_api url (gets_of url t))))
                     ∉ unscored_queue_ids)
     then enrich (json (match_api url (gets_of url t))) puuid
     else mret (json (match_api url (gets_of url t)))) (t ++ [EvGet url]).
Proof.
  intros Hstatus. simpl. unfold mbind, io_bind, session_get.
  by rewrite decide_True.
Qed.

Lemma loop_on_429 (n : nat) (url puuid : string) (t : trace) (secs : Z) :
  status (match_api url (gets_of url t)) = 429 →
  retry_after (match_api url (gets_of url t)) = Some secs →
  loop (S n) url puuid t = loop n url puuid (t ++ [EvGet url; EvSleep secs]).
Proof.
  intros Hstatus Hretry. simpl. unfold mbind, io_bind, session_get.
  rewrite decide_False by lia. rewrite decide_True by done.
  rewrite Hretry. simpl. unfold sleep. by rewrite <- app_assoc.
Qed.

Lemma loop_on_other_status (n : nat) (url puuid : string) (t : trace) :
  status (match_api url (gets_of url t)) ≠ 200 →
  status (match_api url (gets_of url t)) ≠ 429 →
  loop (S n) url puuid t = loop n url puuid (t ++ [EvGet url]).
Proof.
  intros H200 H429. simpl. unfold mbind, io_bind, session_get.
  by rewrite !decide_False.
Qed.

Lemma gets_of_after_retry (url : string) (t : trace) (secs : Z) :
  gets_of url (t ++ [EvGet url; EvSleep secs]) = S (gets_of url t).
Proof. rewrite gets_of_app. simpl. rewrite decide_True by done. lia. Qed.

(** C10: called with no match id, [get_match_preview_list] does not
    return the row with an empty list: its [return] reads the local
    [match_preview_list], which only the non-empty branch assigns, and
    the call raises [UnboundLocalError]. *)
Theorem empty_batch_raises_unbound_local (summoner_db : Summoner F) (puuid : string)
    (t : trace) :
  fetch_list [] summoner_db puuid t = (Raise (UnboundLocalError "match_preview_list"), t).
Proof. reflexivity. Qed.

(** A match of an unscored queue is returned as fetched. *)
Lemma get_match_preview_unscored (url puuid : string) (t : trace) :
  status (match_api url (gets_of url t)) = 200 →
  queueId (info (json (match_api url (gets_of url t)))) ∈ unscored_queue_ids →
  fetch url puuid t = (Ok (json (match_api url (gets_of url t))), t ++ [EvGet url]).
Proof.
  intros Hstatus Hqueue. unfold get_match_preview, max_attempts.
  rewrite loop_on_200 by done. by rewrite bool_decide_false by tauto.
Qed.

(** On the schedule of [gather], the exception of the first fetch that
    fails is the outcome of the whole call. *)
Lemma get_match_preview_list_raises (before after : list string) (match_id region puuid : string)
    (summoner_db : Summoner F) (t0 t1 t2 : trace) (results : list (match_json F)) (e : exn) :
  get_region_by_platform
    (hd EmptyString (split_char "_" (hd EmptyString (before ++ match_id :: after))))
    = Ok region →
  gather (map (fun id => fetch (match_url API_KEY region id) puuid) before) t0
    = (Ok results, t1) →
  fetch (match_url API_KEY region match_id) puuid t1 = (Raise e, t2) →
  fetch_list (before ++ match_id :: after) summoner_db puuid t0 = (Raise e, t2).
Proof.
  intros Hregion Hbefore Hfetch. unfold get_match_preview_list.
  destruct (before ++ match_id :: after) as [|first rest] eqn:Hids.
  { by destruct before. }
  simpl in Hregion. unfold mbind at 1, io_bind at 1. unfold mbind at 1, io_bind at 1.
  unfold lift at 1. rewrite Hregion. unfold mbind at 1, io_bind at 1.
  rewrite <- Hids, map_app. simpl.
  by rewrite (gather_returns_then_raises _ _ _ _ _ _ _ _ Hbefore Hfetch).
Qed.

(** The events and the outcome of a fetch that is answered 429 twice: a
    third answer of 200 is handled after two sleeps, a third 429 costs a
    third sleep and the last attempt. *)
Lemma get_match_preview_after_two_429 (url puuid : string) (t : trace) (s0 s1 : Z) :
  status (match_api url (gets_of url t)) = 429 →
  retry_after (match_api url (gets_of url t)) = Some s0 →
  status (match_api url (S (gets_of url t))) = 429 →
  retry_after (match_api url (S (gets_of url t))) = Some s1 →
  fetch url puuid t
  = loop 1 url puuid (t ++ [EvGet url; EvSleep s0; EvGet url; EvSleep s1])
  ∧ gets_of url (t ++ [EvGet url; EvSleep s0; EvGet url; EvSleep s1])
    = S (S (gets_of url t)).
Proof.
  intros Hs0 Hr0 Hs1 Hr1. unfold get_match_preview, max_attempts.
  rewrite (loop_on_429 _ _ _ _ _ Hs0 Hr0).
  assert (Hk1 : gets_of url (t ++ [EvGet url; EvSleep s0]) = S (gets_of url t))
    by apply gets_of_after_retry.
  rewrite (loop_on_429 _ _ _ _ s1) by (rewrite Hk1; done).
  rewrite <- app_assoc. simpl. split; [done|].
  change (t ++ [EvGet url; EvSleep s0; EvGet url; EvSleep s1])
    with (t ++ [EvGet url; EvSleep s0] ++ [EvGet url; EvSleep s1]).
  by rewrite app_assoc, gets_of_after_retry, Hk1.
Qed.

(** C3, as the code has it: a 429 makes the fetch sleep for the
    [Retry-After] of the response and try again, within three attempts.
    After two 429s a third answer of 200 is handled at once, two sleeps
    after the start; a third 429 is slept on as well and the fetch raises
    [Exception("Failed: Maxed out attempts")]. That exception is not kept
    to the one fetch: a batch that holds the match once does not return,
    whatever its other fetches do, so none of the matches that they
    returned is delivered; and when the other fetches of the batch all
    return, the exception that [get_match_preview_list] raises is that of
    the exhausted fetch. *)
Theorem rate_limit_retry_then_batch_abort (url puuid : string) (t : trace) (s0 s1 : Z) :
  status (match_api url (gets_of url t)) = 429 →
  retry_after (match_api url (gets_of url t)) = Some s0 →
  status (match_api url (S (gets_of url t))) = 429 →
  retry_after (match_api url (S (gets_of url t))) = Some s1 →
  (status (match_api url (S (S (gets_of url t)))) = 200 →
   fetch url puuid t
   = (if bool_decide (queueId (info (json (match_api url (S (S (gets_of url t))))))
                      ∉ unscored_queue_ids)
      then enrich (json (match_api url (S (S (gets_of url t))))) puuid
      else mret (json (match_api url (S (S (gets_of url t))))))
       (t ++ [EvGet url; EvSleep s0; EvGet url; EvSleep s1; EvGet url]))
  ∧ (∀ s2,
       status (match_api url (S (S (gets_of url t)))) = 429 →
       retry_after (match_api url (S (S (gets_of url t)))) = Some s2 →
       fetch url puuid t
       = (Raise (Exception "Failed: Maxed out attempts"),
          t ++ [EvGet url; EvSleep s0; EvGet url; EvSleep s1; EvGet url; EvSleep s2])
       ∧ ∀ (before after : list string) (match_id region : string)
           (summoner_db : Summoner F) (t0 : trace) (results : list (match_json F)),
           url = match_url API_KEY region match_id →
           match_id ∉ before ++ after →
           get_region_by_platform
             (hd EmptyString (split_char "_" (hd EmptyString (before ++ match_id :: after))))
             = Ok region →
           gather (map (fun id => fetch (match_url API_KEY region id) puuid) before) t0
             = (Ok results, t) →
           (∀ returned,
              fst (fetch_list (before ++ match_id :: after) summoner_db puuid t0)
              ≠ Ok returned)
           ∧ ∀ (results_after : list (match_json F)) (t_end : trace),
               gather (map (fun id => fetch (match_url API_KEY region id) puuid) after)
                 (t ++ [EvGet url; EvSleep s0; EvGet url; EvSleep s1; EvGet url; EvSleep s2])
               = (Ok results_after, t_end) →
               fst (fetch_list (before ++ match_id :: after) summoner_db puuid t0)
               = Raise (Exception "Failed: Maxed out attempts")).
Proof.
  intros Hs0 Hr0 Hs1 Hr1.
  destruct (get_match_preview_after_two_429 url puuid t s0 s1 Hs0 Hr0 Hs1 Hr1)
    as [Hfetch Hk2].
  split.
  - intros Hs2. rewrite Hfetch.
    rewrite loop_on_200 by (rewrite Hk2; done).
    rewrite Hk2, <- app_assoc. done.
  - intros s2 Hs2 Hr2.
    assert (Hraise : fetch url puuid t
      = (Raise (Exception "Failed: Maxed out attempts"),
         t ++ [EvGet url; EvSleep s0; EvGet url; EvSleep s1; EvGet url; EvSleep s2])).
    { rewrite Hfetch.
      rewrite (loop_on_429 _ _ _ _ s2) by (rewrite Hk2; done).
      rewrite <- app_assoc. done. }
    split; [exact Hraise|].
    intros before after match_id region summoner_db t0 results -> _ Hregion Hbefore.
    rewrite (get_match_preview_list_raises before after match_id region puuid summoner_db
               t0 t _ results _ Hregion Hbefore Hraise).
    split; [discriminate | done].
Qed.

(** What a returning enrichment has done with the participant of the
    requester: it wrote the KDA to the participant at the index that
    [get_participant_number] gave, handed the match with that participant
    as its player summary to [get_preview_stats], and returns what
    [get_preview_stats] gave with the item list written to it. *)
Lemma enrich_match_inv (m : match_json F) (puuid : string) (t t' : trace)
    (m' : match_json F) :
  enrich m puuid t = (Ok m', t') →
  ∃ (n : Z) (index : nat) (player annotated stats : participant F)
    (handed : match_json F),
    get_participant_number m puuid = Ok n
    ∧ py_index (participants (info m)) n = Ok index
    ∧ participants (info m) !! index = Some player
    ∧ raw annotated = raw player
    ∧ kda annotated = Some (kda_by_spec (kills player) (assists player) (deaths player))
    ∧ matchId handed = matchId m
    ∧ participants (info handed) = <[index := annotated]> (participants (info m))
    ∧ player_summary handed = Some annotated
    ∧ get_preview_stats handed = Ok stats
    ∧ participants (info m') = <[index := annotated]> (participants (info m))
    ∧ player_summary m' = Some (set_items stats (preview_items stats))
    ∧ queueId (info m') = queueId (info m).
Proof.
  unfold enrich_match. intros Hrun.
  unfold mbind, io_bind, lift in Hrun.
  destruct (get_participant_number m puuid) as [n|] eqn:Hn; [|discriminate Hrun].
  destruct (py_index (participants (info m)) n) as [index|] eqn:Hindex;
    [|discriminate Hrun].
  destruct (py_getitem (participants (info m)) n) as [player|] eqn:Hplayer;
    [|discriminate Hrun].
  assert (Hlookup : participants (info m) !! index = Some player).
  { unfold py_getitem in Hplayer. rewrite Hindex in Hplayer. simpl in Hplayer.
    destruct (participants (info m) !! index); [by injection Hplayer as -> | done]. }
  rewrite preview_kda_by_spec in Hrun.
  repeat match type of Hrun with
         | context [match ?r with Ok _ => _ | Raise _ => _ end] =>
             lazymatch r with
             | context [match _ with _ => _ end] => fail
             | _ => destruct r eqn:?; [|discriminate Hrun]
             end
         end.
  destruct (get_rune_primary perks_api _ t) as [[rune1|e] t1]; [|discriminate Hrun].
  repeat match type of Hrun with
         | context [match ?r with Ok _ => _ | Raise _ => _ end] =>
             lazymatch r with
             | context [match _ with _ => _ end] => fail
             | _ => destruct r eqn:?; [|discriminate Hrun]
             end
         end.
  injection Hrun as <- <-.
  match goal with
  | Hstats : get_preview_stats ?handed = Ok ?stats |- _ =>
      match handed with
      | context [Some ?annotated] =>
          exists n, index, player, annotated, stats, handed
      end
  end.
  simpl. repeat split; assumption.
Qed.

Lemma get_match_preview_loop_inv (n : nat) (url puuid : string) (t t' : trace)
    (m' : match_json F) :
  loop n url puuid t = (Ok m', t') →
  ∃ (k : nat) (t1 : trace),
    status (match_api url k) = 200
    ∧ if bool_decide (queueId (info (json (match_api url k))) ∉ unscored_queue_ids)
      then enrich (json (match_api url k)) puuid t1 = (Ok m', t')
      else m' = json (match_api url k).
Proof.
  revert t. induction n as [|n IH]; intros t Hrun; [discriminate Hrun|].
  destruct (decide (status (match_api url (gets_of url t)) = 200)) as [H200|H200].
  - rewrite loop_on_200 in Hrun by done.
    exists (gets_of url t), (t ++ [EvGet url]). split; [done|].
    case_bool_decide; [done | by injection Hrun as <- <-].
  - destruct (decide (status (match_api url (gets_of url t)) = 429)) as [H429|H429].
    + destruct (retry_after (match_api url (gets_of url t))) as [secs|] eqn:Hretry.
      * rewrite (loop_on_429 _ _ _ _ secs) in Hrun by done. by eapply IH.
      * simpl in Hrun. unfold mbind, io_bind, session_get in Hrun.
        rewrite decide_False, decide_True, Hretry in Hrun by done.
        discriminate Hrun.
    + rewrite loop_on_other_status in Hrun by done. by eapply IH.
Qed.

(** A match of a scored queue that [get_match_preview] returns is the
    enrichment of a payload that the remote served with status 200. *)
Lemma get_match_preview_enriched (url puuid : string) (t t' : trace) (m' : match_json F) :
  fetch url puuid t = (Ok m', t') →
  queueId (info m') ∉ unscored_queue_ids →
  ∃ (k : nat) (t1 : trace),
    status (match_api url k) = 200
    ∧ enrich (json (match_api url k)) puuid t1 = (Ok m', t').
Proof.
  intros Hrun Hqueue.
  destruct (get_match_preview_loop_inv _ _ _ _ _ _ Hrun) as (k & t1 & H200 & Hbody).
  exists k, t1. split; [done|].
  case_bool_decide as Hscored; [done|]. subst m'. tauto.
Qed.

(** C9: the player summary of every match that [get_match_preview]
    returns enriched is the dictionary that [get_preview_stats] returned
    for that match, with one key written: [items], the list
    [item0, item1, item2, item6, item3, item4, item5] of the slots of that
    dictionary, the trinket of slot 6 in fourth place. The match handed
    to [get_preview_stats] is the payload served, with the participant of
    the requester as its player summary. *)
Theorem item_list_in_display_order (url puuid : string) (t t' : trace) (m' : match_json F) :
  fetch url puuid t = (Ok m', t') →
  queueId (info m') ∉ unscored_queue_ids →
  ∃ (k : nat) (n : Z) (index : nat) (requester annotated stats player : participant F)
    (handed : match_json F),
    status (match_api url k) = 200
    ∧ get_participant_number (json (match_api url k)) puuid = Ok n
    ∧ py_index (participants (info (json (match_api url k)))) n = Ok index
    ∧ participants (info (json (match_api url k))) !! index = Some requester
    ∧ raw annotated = raw requester
    ∧ matchId handed = matchId (json (match_api url k))
    ∧ player_summary handed = Some annotated
    ∧ get_preview_stats handed = Ok stats
    ∧ player_summary m' = Some player
    ∧ raw player = raw stats
    ∧ kda player = kda stats
    ∧ summoner_spell_1 player = summoner_spell_1 stats
    ∧ summoner_spell_2 player = summoner_spell_2 stats
    ∧ rune_primary player = rune_primary stats
    ∧ rune_secondary player = rune_secondary stats
    ∧ items player
      = Some [item0 stats; item1 stats; item2 stats; item6 stats;
              item3 stats; item4 stats; item5 stats].
Proof.
  intros Hrun Hqueue.
  destruct (get_match_preview_enriched _ _ _ _ _ Hrun Hqueue) as (k & t1 & H200 & Henrich).
  destruct (enrich_match_inv _ _ _ _ _ Henrich)
    as (n & index & requester & annotated & stats & handed & Hn & Hindex & Hrequester
        & Hraw & _ & Hid & _ & Hhanded & Hstats & _ & Hsummary & _).
  exists k, n, index, requester, annotated, stats,
    (set_items stats (preview_items stats)), handed.
  by repeat (split; [assumption|]).
Qed.


(** A custom or tutorial match that is fetched is handed on without
    player summary, and the fold of the batch stops on it. *)
Lemma unscored_match_stops_the_fold (match_id region puuid : string)
    (summoner_db : Summoner F) (t : trace) :
  get_region_by_platform (hd EmptyString (split_char "_" match_id)) = Ok region →
  status (match_api (match_url API_KEY region match_id)
                    (gets_of (match_url API_KEY region match_id) t)) = 200 →
  queueId (info (json (match_api (match_url API_KEY region match_id)
                                 (gets_of (match_url API_KEY region match_id) t))))
    ∈ unscored_queue_ids →
  player_summary (json (match_api (match_url API_KEY region match_id)
                                  (gets_of (match_url API_KEY region match_id) t))) = None →
  fetch_list [match_id] summoner_db puuid t
  = (Raise (KeyError "player_summary"), t ++ [EvGet (match_url API_KEY region match_id)]).
Proof.
  intros Hregion Hstatus Hqueue Hnone. unfold get_match_preview_list.
  unfold mbind at 1, io_bind at 1. unfold mbind at 1, io_bind at 1.
  unfold lift at 1. simpl hd. rewrite Hregion.
  unfold mbind at 1, io_bind at 1. simpl gather.
  unfold mbind at 1, io_bind at 1.
  rewrite (get_match_preview_unscored _ _ _ Hstatus Hqueue).
  unfold mbind at 1, io_bind at 1. unfold mret at 1, io_ret at 1.
  unfold mret at 1, io_ret at 1.
  unfold mbind at 1, io_bind at 1. unfold lift at 1. simpl fold_matches.
  by rewrite fold_match_without_summary.
Qed.
End FetchFacts.

Section RankFetchFacts.
Context {L : Type}.
Variable league_api : string → nat → response L.

Lemma leagues_loop_on_429 (n : nat) (url : string) (t : trace) (secs : Z) :
  status (league_api url (gets_of url t)) = 429 →
  retry_after (league_api url (gets_of url t)) = Some secs →
  get_leagues_json_loop league_api (S n) url t
  = get_leagues_json_loop league_api n url (t ++ [EvGet url; EvSleep secs]).
Proof.
  intros Hstatus Hretry. simpl. unfold mbind, io_bind, session_get_league.
  rewrite decide_False by lia. rewrite decide_True by done.
  rewrite Hretry. simpl. unfold sleep. by rewrite <- app_assoc.
Qed.

Lemma leagues_loop_on_200 (n : nat) (url : string) (t : trace) :
  status (league_api url (gets_of url t)) = 200 →
  get_leagues_json_loop league_api (S n) url t
  = (Ok (json (league_api url (gets_of url t))), t ++ [EvGet url]).
Proof.
  intros Hstatus. simpl. unfold mbind, io_bind, session_get_league.
  by rewrite decide_True.
Qed.

(** The rank fetch has the same loop: [429, 429, 200] returns the body
    after two sleeps, three 429s raise after three. *)
Lemma get_leagues_json_after_two_429 (url : string) (t : trace) (s0 s1 : Z) :
  status (league_api url (gets_of url t)) = 429 →
  retry_after (league_api url (gets_of url t)) = Some s0 →
  status (league_api url (S (gets_of url t))) = 429 →
  retry_after (league_api url (S (gets_of url t))) = Some s1 →
  (status (league_api url (S (S (gets_of url t)))) = 200 →
   get_leagues_json league_api url t
   = (Ok (json (league_api url (S (S (gets_of url t))))),
      t ++ [EvGet url; EvSleep s0; EvGet url; EvSleep s1; EvGet url]))
  ∧ (∀ s2,
       status (league_api url (S (S (gets_of url t)))) = 429 →
       retry_after (league_api url (S (S (gets_of url t)))) = Some s2 →
       get_leagues_json league_api url t
       = (Raise (Exception "Failed: Maxed out attempts"),
          t ++ [EvGet url; EvSleep s0; EvGet url; EvSleep s1; EvGet url; EvSleep s2])).
Proof.
  intros Hs0 Hr0 Hs1 Hr1. unfold get_leagues_json, max_attempts.
  rewrite (leagues_loop_on_429 _ _ _ _ Hs0 Hr0).
  assert (Hk1 : gets_of url (t ++ [EvGet url; EvSleep s0]) = S (gets_of url t)).
  { rewrite gets_of_app. simpl. rewrite decide_True by done. lia. }
  rewrite (leagues_loop_on_429 _ _ _ s1) by (rewrite Hk1; done).
  assert (Hk2 : gets_of url ((t ++ [EvGet url; EvSleep s0]) ++ [EvGet url; EvSleep s1])
                = S (S (gets_of url t))).
  { rewrite gets_of_app, Hk1. simpl. rewrite decide_True by done. lia. }
  split.
  - intros Hs2. rewrite leagues_loop_on_200 by (rewrite Hk2; done).
    by rewrite Hk2, <- !app_assoc.
  - intros s2 Hs2 Hr2.
    rewrite (leagues_loop_on_429 _ _ _ s2) by (rewrite Hk2; done).
    by rewrite <- !app_assoc.
Qed.
End RankFetchFacts.

(** ** The properties on the sample setting *)

Import ExactArith.

(** C1 on two matches folded into a fresh row. *)
Lemma ranked_stats_totals_and_rates_witness :
  ∃ summoner_db',
    fold_ranked_stats Sample.fresh_db Sample.two_folds = Ok summoner_db'
    ∧ total (stat_kills (stats summoner_db')) = 11
    ∧ per_min (stat_kills (stats summoner_db'))
      = fresh_rate (total (stat_kills (stats summoner_db'))) (minutes summoner_db')
    ∧ per_match (stat_kills (stats summoner_db'))
      = fresh_rate (total (stat_kills (stats summoner_db'))) (matches summoner_db').
Proof.
  destruct (ranked_stats_totals_and_rates Sample.fresh_db Sample.two_folds)
    as (db' & Hfold & _ & _ & _ & _ & Htotal & Hrates).
  { repeat split; vm_compute; lia. }
  exists db'. split; [exact Hfold|].
  split; [exact (Htotal Kills)|].
  exact (Hrates ltac:(discriminate) Kills).
Defined.

Example two_folds_from_scratch :
  (summoner_db ← fold_ranked_stats Sample.fresh_db Sample.two_folds;
   mret (matches summoner_db, minutes summoner_db,
         total (stat_minions (stats summoner_db)),
         per_match (stat_kills (stats summoner_db))))
  = Ok (2, 55, 324, NFloat (11 # 2)).
Proof. vm_compute. reflexivity. Qed.

Example short_match_on_fresh_row_raises :
  add_database_ranked_stats Sample.fresh_db (Sample.payload "EUW1_9" "CLASSIC" 420 20)
    (Sample.player "Garen" "TOP" true 0 0 0)
  = Raise ZeroDivisionError.
Proof. vm_compute. reflexivity. Qed.


Example kda_with_and_without_deaths :
  preview_kda (Sample.player "Garen" "TOP" true 7 0 5) = Ok (NInt 12)
  ∧ preview_kda (Sample.player "Ahri" "MIDDLE" true 9 2 6) = Ok (NFloat (15 # 2))
  ∧ preview_kda (Sample.player "Zed" "MIDDLE" false 6 7 1) = Ok (NFloat (1 # 1)).
Proof. vm_compute. repeat split. Qed.


Example garen_played_again :
  (summoner_db ← add_database_champion_stats Sample.fromtimestamp_date Sample.garen_db
                   (Sample.payload "EUW1_2" "CLASSIC" 420 1500)
                   (Sample.player "Garen" "TOP" false 2 4 6);
   mret (champions summoner_db !! "Garen"))
  = Ok (Some {| ch_num := 2; ch_kills := 9; ch_assists := 11; ch_deaths := 4;
                ch_kda := NFloat (5 # 1); ch_wins := 1; ch_losses := 1;
                ch_win_rate := NFloat (50 # 1); ch_play_rate := NFloat (2 # 1);
                ch_minions := 324; ch_vision := 40; ch_gold := 22000;
                ch_damage := 36000; ch_last_played := "2021-11-24" |}).
Proof. vm_compute. reflexivity. Qed.

(** C5 on an ARAM match. *)
Lemma skipped_match_leaves_stats_unchanged_witness :
  fold_match Sample.fromtimestamp_date Sample.garen_db Sample.aram_preview
  = Ok Sample.garen_db.
Proof.
  apply (skipped_match_leaves_stats_unchanged Sample.fromtimestamp_date Sample.garen_db
           Sample.aram_preview (Sample.player "Garen" "" true 7 0 5)).
  - reflexivity.
  - left. discriminate.
Defined.

(** C3 on the sample remote: [EUW1_2] is served after two sleeps of one
    second; [EUW1_3] is never served, and the batch that holds it between
    two matches that are served raises the exception of its fetch. *)
Lemma rate_limit_retry_then_batch_abort_witness :
  (∃ m, fst (Sample.preview (Sample.url_of "EUW1_2") "puuid" []) = Ok m)
  ∧ sleeps_of (snd (Sample.preview (Sample.url_of "EUW1_2") "puuid" [])) = [1; 1]
  ∧ fst (Sample.preview_list ["EUW1_1"; "EUW1_3"; "EUW1_2"] Sample.fresh_db "puuid" [])
    = Raise (Exception "Failed: Maxed out attempts").
Proof.
  split; [|split].
  - destruct (rate_limit_retry_then_batch_abort Sample.API_KEY Sample.match_api
                Sample.perks_api Sample.fromtimestamp_date Sample.get_participant_number
                Sample.get_preview_stats (Sample.url_of "EUW1_2") "puuid" [] 1 1
                eq_refl eq_refl eq_refl eq_refl) as [Hreturns _].
    unfold Sample.preview. rewrite (Hreturns eq_refl). vm_compute. eexists. reflexivity.
  - destruct (rate_limit_retry_then_batch_abort Sample.API_KEY Sample.match_api
                Sample.perks_api Sample.fromtimestamp_date Sample.get_participant_number
                Sample.get_preview_stats (Sample.url_of "EUW1_2") "puuid" [] 1 1
                eq_refl eq_refl eq_refl eq_refl) as [Hreturns _].
    unfold Sample.preview. rewrite (Hreturns eq_refl). vm_compute. reflexivity.
  - destruct (rate_limit_retry_then_batch_abort Sample.API_KEY Sample.match_api
                Sample.perks_api Sample.fromtimestamp_date Sample.get_participant_number
                Sample.get_preview_stats (Sample.url_of "EUW1_3") "puuid" Sample.trace_1 1 1
                eq_refl eq_refl eq_refl eq_refl) as [_ Hraises].
    destruct (Hraises 1 eq_refl eq_refl) as [_ Hbatch].
    destruct (Hbatch ["EUW1_1"] ["EUW1_2"] "EUW1_3" "EUROPE" Sample.fresh_db []
                [Sample.fetched_1]) as [_ Hexception].
    + reflexivity.
    + apply (bool_decide_unpack _). vm_compute. exact I.
    + reflexivity.
    + vm_compute. reflexivity.
    + destruct (gather (map (fun id => Sample.preview (Sample.url_of id) "puuid") ["EUW1_2"])
                  (Sample.trace_1
                   ++ [EvGet (Sample.url_of "EUW1_3"); EvSleep 1;
                       EvGet (Sample.url_of "EUW1_3"); EvSleep 1;
                       EvGet (Sample.url_of "EUW1_3"); EvSleep 1]))
        as [[results_after|e] t_end] eqn:Hafter; [|vm_compute in Hafter; discriminate Hafter].
      exact (Hexception results_after t_end Hafter).
Defined.

(** C3, the claim as stated fails: in a batch of two, the fetch of
    [EUW1_1] returns its match and the fetch of [EUW1_3] is answered 429
    three times; the exception of the second is the outcome of the whole
    call, and the match of the first is not delivered. *)
Lemma exhausted_fetch_fails_the_batch :
  fst (Sample.preview (Sample.url_of "EUW1_1") "puuid" []) = Ok Sample.fetched_1
  ∧ fst (Sample.preview (Sample.url_of "EUW1_3") "puuid" Sample.trace_1)
    = Raise (Exception "Failed: Maxed out attempts")
  ∧ fst (Sample.preview_list ["EUW1_1"; "EUW1_3"] Sample.fresh_db "puuid" [])
    = Raise (Exception "Failed: Maxed out attempts")
  ∧ (∃ summoner_db, fst (Sample.preview_list ["EUW1_1"] Sample.fresh_db "puuid" [])
                    = Ok (summoner_db, [Sample.fetched_1])).
Proof.
  split; [vm_compute; reflexivity|].
  split; [vm_compute; reflexivity|].
  split; [vm_compute; reflexivity|].
  vm_compute. eexists. reflexivity.
Qed.

(** C9 on the first match of the sample remote: the slots 10 to 16 of the
    requester come in the order 10, 11, 12, 16, 13, 14, 15. *)
Lemma item_list_in_display_order_witness :
  ∃ player,
    player_summary Sample.fetched_1 = Some player
    ∧ [item0 player; item1 player; item2 player; item3 player;
       item4 player; item5 player; item6 player]
      = [10; 11; 12; 13; 14; 15; 16]
    ∧ items player = Some [10; 11; 12; 16; 13; 14; 15].
Proof.
  destruct (item_list_in_display_order Sample.match_api Sample.perks_api
              Sample.fromtimestamp_date Sample.get_participant_number
              Sample.get_preview_stats (Sample.url_of "EUW1_1") "puuid" [] Sample.trace_1
              Sample.fetched_1)
    as (k & n & index & requester & annotated & stats & player & handed & _ & Hn & Hindex
        & Hrequester & Hannotated & _ & Hhanded & Hstats & Hsummary & Hraw & _ & _ & _ & _
        & _ & Hitems).
  - vm_compute. reflexivity.
  - apply (bool_decide_unpack _). vm_compute. exact I.
  - injection Hn as <-.
    vm_compute in Hindex. injection Hindex as <-.
    vm_compute in Hrequester. injection Hrequester as <-.
    unfold Sample.get_preview_stats in Hstats. rewrite Hhanded in Hstats.
    injection Hstats as <-.
    exists player. split; [exact Hsummary|].
    rewrite Hitems, Hraw, Hannotated. split; reflexivity.
Defined.

Example items_of_the_first_match :
  (player ← player_summary Sample.fetched_1; items player)
  = Some [10; 11; 12; 16; 13; 14; 15].
Proof. vm_compute. reflexivity. Qed.

(** C6, the code at a custom match: the match of queue 0 is fetched and
    returned without enrichment, it is in the list that the fold loop of
    [get_match_preview_list] walks, and the loop raises [KeyError] on its
    missing player summary, alone or after a scored match. *)
Example custom_match_reaches_the_fold :
  fst (Sample.preview (Sample.url_of "EUW1_4") "puuid" [])
  = Ok (Sample.payload "EUW1_4" "CLASSIC" 0 1200)
  ∧ fst (Sample.preview_list ["EUW1_4"] Sample.fresh_db "puuid" [])
    = Raise (KeyError "player_summary")
  ∧ fst (Sample.preview_list ["EUW1_1"; "EUW1_4"] Sample.fresh_db "puuid" [])
    = Raise (KeyError "player_summary").
Proof. repeat split; vm_compute; reflexivity. Qed.

(** The fold pass on a ranked match and an ARAM match: one match counted. *)
Lemma fold_matches_totals_and_rates_witness :
  ∃ summoner_db',
    fold_matches Sample.fromtimestamp_date Sample.fresh_db
      [Sample.top_preview "EUW1_1" true; Sample.aram_preview] = Ok summoner_db'
    ∧ matches summoner_db' = 1
    ∧ total (stat_kills (stats summoner_db')) = 5
    ∧ rates_fresh summoner_db'.
Proof.
  destruct (fold_matches Sample.fromtimestamp_date Sample.fresh_db
              [Sample.top_preview "EUW1_1" true; Sample.aram_preview])
    as [db'|e] eqn:Hrun; [|vm_compute in Hrun; discriminate Hrun].
  destruct (fold_matches_totals_and_rates Sample.fromtimestamp_date _ _ _ Hrun)
    as (Hmatches & _ & Htotals & Hfresh).
  exists db'. split; [reflexivity|].
  split; [exact Hmatches|].
  split; [exact (Htotals Kills)|].
  apply Hfresh. right. apply Exists_cons_hd. by eexists.
Defined.

Example role_win_rate_three_of_five :
  (summoner_db ← fold_matches Sample.fromtimestamp_date Sample.fresh_db
                   [Sample.top_preview "EUW1_1" true; Sample.top_preview "EUW1_2" true;
                    Sample.top_preview "EUW1_3" false; Sample.top_preview "EUW1_4" true;
                    Sample.top_preview "EUW1_5" false];
   mret (roles summoner_db !! "top"))
  = Ok (Some {| role_num := 5; role_wins := 3; role_losses := 2; role_win_rate := 60 |}).
Proof. vm_compute. reflexivity. Qed.

Example third_matchup_pairs_p2_with_p7 :
  (fun pair : participant Q * participant Q =>
     (championName (fst pair), championName (snd pair)))
  <$> (pairs ← matchups (info Sample.fetched_1); pairs !! 2%nat)
  = Some ("Ahri", "Zed").
Proof. vm_compute. reflexivity. Qed.

Example patch_of_short_version : preview_patch "5.1.2.3" = "5.1.1".
Proof. reflexivity. Qed.

(** The rank fetch on an endpoint that is rate limited twice. *)
Lemma get_leagues_json_after_two_429_witness :
  get_leagues_json Sample.league_api "https://euw1/league" []
  = (Ok ["RANKED_SOLO_5x5"],
     [EvGet "https://euw1/league"; EvSleep 2; EvGet "https://euw1/league"; EvSleep 2;
      EvGet "https://euw1/league"]).
Proof.
  destruct (get_leagues_json_after_two_429 Sample.league_api "https://euw1/league" [] 2 2
              eq_refl eq_refl eq_refl eq_refl) as [Hreturns _].
  exact (Hreturns eq_refl).
Defined.

(** ** More on the fetch loop and the enricher *)

Lemma py_getitem_nonneg {A : Type} (l : list A) (i : Z) :
  0 ≤ i →
  py_getitem l i = match l !! Z.to_nat i with
                   | Some a => Ok a
                   | None => Raise IndexError
                   end.
Proof.
  intros Hi. unfold py_getitem, py_index. cbv zeta.
  destruct (decide (i < 0)) as [Hneg|_]; [lia|].
  destruct (decide (0 ≤ i < Z.of_nat (length l))) as [Hin|Hout]; simpl; [done|].
  rewrite lookup_ge_None_2; [done|]. lia.
Qed.

Lemma gather_length {A : Type} (tasks : list (io A)) (t t' : trace) (results : list A) :
  gather tasks t = (Ok results, t') → length results = length tasks.
Proof.
  revert t results. induction tasks as [|task tasks IH]; intros t results Hrun; simpl in *.
  - injection Hrun as <- _. reflexivity.
  - unfold mbind, io_bind in Hrun.
    destruct (task t) as [[a|e] t1]; [|discriminate Hrun].
    fold (@gather A) in Hrun.
    destruct (gather tasks t1) as [[others|e] t2] eqn:Hothers; [|discriminate Hrun].
    injection Hrun as <- <-. simpl. f_equal. by eapply IH.
Qed.

Section FetchBounds.
Context `{PyFloat F}.
Variable API_KEY : string.
Variable match_api : string → nat → response (match_json F).
Variable perks_api : nat → list perk.
Variable fromtimestamp_date : Z → string.
Variable get_participant_number : match_json F → string → res Z.
Variable get_preview_stats : match_json F → res (participant F).

Local Abbreviation enrich := (enrich_match perks_api fromtimestamp_date get_participant_number
                      get_preview_stats).
Local Abbreviation loop := (get_match_preview_loop match_api perks_api fromtimestamp_date
                    get_participant_number get_preview_stats).
Local Abbreviation fetch := (get_match_preview match_api perks_api fromtimestamp_date
                     get_participant_number get_preview_stats).
Local Abbreviation fetch_list := (get_match_preview_list API_KEY match_api perks_api
                          fromtimestamp_date get_participant_number get_preview_stats).

(** The only remote call of the enrichment is the fetch of the perks
    table, and it comes at most once. *)
Lemma enrich_match_trace (m : match_json F) (puuid : string) (t : trace) :
  snd (enrich m puuid t) = t ∨ snd (enrich m puuid t) = t ++ [EvGet perks_url].
Proof.
  unfold enrich_match, mbind, io_bind, lift.
  repeat match goal with
         | |- context [match ?r with Ok _ => _ | Raise _ => _ end] =>
             lazymatch r with
             | context [match _ with _ => _ end] => fail
             | _ => destruct r; [|by left]
             end
         end.
  match goal with
  | |- context [get_rune_primary perks_api ?perk0 t] =>
      pose proof (get_rune_primary_trace perks_api perk0 t) as Htrace;
      destruct (get_rune_primary perks_api perk0 t) as [[rune1|e] t1]
  end; simpl in Htrace; subst t1; [|by right].
  repeat match goal with
         | |- context [match ?r with Ok _ => _ | Raise _ => _ end] =>
             lazymatch r with
             | context [match _ with _ => _ end] => fail
             | _ => destruct r; [|by right]
             end
         end.
  by right.
Qed.

Lemma sleeps_of_app (t1 t2 : trace) : sleeps_of (t1 ++ t2) = sleeps_of t1 ++ sleeps_of t2.
Proof. induction t1 as [|[u|secs] t1 IH]; simpl; [done | done | by rewrite IH]. Qed.

Lemma get_match_preview_loop_bounded (n : nat) (url puuid : string) (t : trace) :
  url ≠ perks_url →
  ∃ suffix,
    snd (loop n url puuid t) = t ++ suffix
    ∧ (gets_of url suffix ≤ n)%nat
    ∧ (gets_of perks_url suffix ≤ 1)%nat
    ∧ (length (sleeps_of suffix) ≤ n)%nat.
Proof.
  intros Hurl. revert t. induction n as [|n IH]; intros t.
  - exists []. simpl. rewrite app_nil_r. repeat split; lia.
  - destruct (decide (status (match_api url (gets_of url t)) = 200)) as [H200|H200].
    + rewrite loop_on_200 by done.
      assert (Hone : gets_of url [EvGet url] = 1%nat) by (simpl; by rewrite decide_True).
      assert (Hnone : gets_of perks_url [EvGet url] = 0%nat)
        by (simpl; by rewrite decide_False).
      case_bool_decide.
      * destruct (enrich_match_trace (json (match_api url (gets_of url t))) puuid
                    (t ++ [EvGet url])) as [-> | ->].
        -- exists [EvGet url]. rewrite Hone, Hnone. simpl. repeat split; lia.
        -- exists [EvGet url; EvGet perks_url]. rewrite <- app_assoc. simpl.
           repeat case_decide; try done; repeat split; lia.
      * exists [EvGet url]. rewrite Hone, Hnone. simpl. repeat split; lia.
    + destruct (decide (status (match_api url (gets_of url t)) = 429)) as [H429|H429].
      * destruct (retry_after (match_api url (gets_of url t))) as [secs|] eqn:Hretry.
        -- rewrite (loop_on_429 _ _ _ _ _ _ _ _ _ secs) by done.
           destruct (IH (t ++ [EvGet url; EvSleep secs]))
             as (suffix & -> & Hgets & Hperks & Hsleeps).
           exists ([EvGet url; EvSleep secs] ++ suffix). rewrite <- app_assoc.
           split; [done|]. rewrite !gets_of_app, sleeps_of_app, length_app. simpl.
           repeat case_decide; try done; repeat split; simpl; lia.
        -- exists [EvGet url]. simpl loop. unfold mbind, io_bind, session_get.
           rewrite decide_False by lia. rewrite decide_True by done. rewrite Hretry.
           simpl. repeat case_decide; try done; repeat split; lia.
      * rewrite loop_on_other_status by done.
        destruct (IH (t ++ [EvGet url])) as (suffix & -> & Hgets & Hperks & Hsleeps).
        exists ([EvGet url] ++ suffix). rewrite <- app_assoc.
        split; [done|]. rewrite !gets_of_app, sleeps_of_app, length_app. simpl.
        repeat case_decide; try done; repeat split; simpl; lia.
Qed.

(** One call of [get_match_preview] only adds to the trace, and adds at
    most three requests of the match, one request of the perks table and
    three sleeps, whatever the remote answers. *)
Theorem get_match_preview_bounded (url puuid : string) (t : trace) :
  url ≠ perks_url →
  ∃ suffix,
    snd (fetch url puuid t) = t ++ suffix
    ∧ (gets_of url suffix ≤ 3)%nat
    ∧ (gets_of perks_url suffix ≤ 1)%nat
    ∧ (length (sleeps_of suffix) ≤ 3)%nat.
Proof. intros Hurl. by apply get_match_preview_loop_bounded. Qed.

Lemma get_match_preview_loop_no_200 (n : nat) (url puuid : string) (t : trace) :
  (∀ i, (i < n)%nat →
     status (match_api url (gets_of url t + i)) ≠ 200
     ∧ (status (match_api url (gets_of url t + i)) = 429 →
        is_Some (retry_after (match_api url (gets_of url t + i))))) →
  fst (loop n url puuid t) = Raise (Exception "Failed: Maxed out attempts")
  ∧ gets_of url (snd (loop n url puuid t)) = (gets_of url t + n)%nat.
Proof.
  revert t. induction n as [|n IH]; intros t Hanswers.
  - simpl. split; [done | lia].
  - destruct (Hanswers 0%nat ltac:(lia)) as [H200 Hretry].
    rewrite Nat.add_0_r in H200, Hretry.
    destruct (decide (status (match_api url (gets_of url t)) = 429)) as [H429|H429].
    + destruct (Hretry H429) as [secs Hsecs].
      rewrite (loop_on_429 _ _ _ _ _ _ _ _ _ secs) by done.
      destruct (IH (t ++ [EvGet url; EvSleep secs])) as [Hraise Hgets].
      { intros i Hi. rewrite gets_of_after_retry.
        replace (S (gets_of url t) + i)%nat with (gets_of url t + S i)%nat by lia.
        apply Hanswers. lia. }
      split; [exact Hraise|]. rewrite Hgets, gets_of_after_retry. lia.
    + rewrite loop_on_other_status by done.
      destruct (IH (t ++ [EvGet url])) as [Hraise Hgets].
      { intros i Hi. rewrite gets_of_snoc_get.
        replace (S (gets_of url t) + i)%nat with (gets_of url t + S i)%nat by lia.
        apply Hanswers. lia. }
      split; [exact Hraise|]. rewrite Hgets, gets_of_snoc_get. lia.
Qed.

(** A fetch that is never answered 200 in its three attempts raises the
    maxed-out exception after exactly three requests, whatever the other
    statuses are: a 404 or a 500 is tried again like a 429, only without
    sleeping, and there is no outcome of its own for either. *)
Theorem get_match_preview_without_200 (url puuid : string) (t : trace) :
  (∀ i, (i < 3)%nat →
     status (match_api url (gets_of url t + i)) ≠ 200
     ∧ (status (match_api url (gets_of url t + i)) = 429 →
        is_Some (retry_after (match_api url (gets_of url t + i))))) →
  fst (fetch url puuid t) = Raise (Exception "Failed: Maxed out attempts")
  ∧ gets_of url (snd (fetch url puuid t)) = (gets_of url t + 3)%nat.
Proof. apply get_match_preview_loop_no_200. Qed.

(** A 429 that carries no [Retry-After] header ends the fetch at once:
    reading the header raises [KeyError], without sleep and without a
    second attempt. *)
Theorem rate_limited_without_retry_after (url puuid : string) (t : trace) :
  status (match_api url (gets_of url t)) = 429 →
  retry_after (match_api url (gets_of url t)) = None →
  fetch url puuid t = (Raise (KeyError "Retry-After"), t ++ [EvGet url]).
Proof.
  intros H429 Hnone. unfold get_match_preview, max_attempts. simpl.
  unfold mbind, io_bind, session_get.
  rewrite decide_False by lia. rewrite decide_True by done. by rewrite Hnone.
Qed.

Lemma preview_matchups_unfold (ps : list (participant F)) :
  preview_matchups ps
  = (a0 ← py_getitem ps 0; b0 ← py_getitem ps 5;
     a1 ← py_getitem ps 1; b1 ← py_getitem ps 6;
     a2 ← py_getitem ps 2; b2 ← py_getitem ps 7;
     a3 ← py_getitem ps 3; b3 ← py_getitem ps 8;
     a4 ← py_getitem ps 4; b4 ← py_getitem ps 9;
     mret [(a0, b0); (a1, b1); (a2, b2); (a3, b3); (a4, b4)]).
Proof.
  unfold preview_matchups. simpl.
  change (0 + 5) with 5. change (1 + 5) with 6. change (2 + 5) with 7.
  change (3 + 5) with 8. change (4 + 5) with 9.
  destruct (py_getitem ps 0); [|reflexivity]. simpl.
  destruct (py_getitem ps 5); [|reflexivity]. simpl.
  destruct (py_getitem ps 1); [|reflexivity]. simpl.
  destruct (py_getitem ps 6); [|reflexivity]. simpl.
  destruct (py_getitem ps 2); [|reflexivity]. simpl.
  destruct (py_getitem ps 7); [|reflexivity]. simpl.
  destruct (py_getitem ps 3); [|reflexivity]. simpl.
  destruct (py_getitem ps 8); [|reflexivity]. simpl.
  destruct (py_getitem ps 4); [|reflexivity]. simpl.
  destruct (py_getitem ps 9); reflexivity.
Qed.

(** Rewrites the ten subscripts of the matchups loop into list lookups. *)
Ltac matchups_lookups :=
  rewrite preview_matchups_unfold, !py_getitem_nonneg by lia;
  change (Z.to_nat 0) with 0%nat; change (Z.to_nat 1) with 1%nat;
  change (Z.to_nat 2) with 2%nat; change (Z.to_nat 3) with 3%nat;
  change (Z.to_nat 4) with 4%nat; change (Z.to_nat 5) with 5%nat;
  change (Z.to_nat 6) with 6%nat; change (Z.to_nat 7) with 7%nat;
  change (Z.to_nat 8) with 8%nat; change (Z.to_nat 9) with 9%nat.

Lemma preview_matchups_returns (ps : list (participant F))
    (pairs : list (participant F * participant F)) :
  preview_matchups ps = Ok pairs →
  (10 ≤ length ps)%nat
  ∧ length pairs = 5%nat
  ∧ ∀ i, (i < 5)%nat →
      ∃ a b, ps !! i = Some a ∧ ps !! (i + 5)%nat = Some b ∧ pairs !! i = Some (a, b).
Proof.
  matchups_lookups. intros Hrun.
  destruct (ps !! 0%nat) as [a0|] eqn:H0; [|discriminate Hrun]. simpl in Hrun.
  destruct (ps !! 5%nat) as [b0|] eqn:H5; [|discriminate Hrun]. simpl in Hrun.
  destruct (ps !! 1%nat) as [a1|] eqn:H1; [|discriminate Hrun]. simpl in Hrun.
  destruct (ps !! 6%nat) as [b1|] eqn:H6; [|discriminate Hrun]. simpl in Hrun.
  destruct (ps !! 2%nat) as [a2|] eqn:H2; [|discriminate Hrun]. simpl in Hrun.
  destruct (ps !! 7%nat) as [b2|] eqn:H7; [|discriminate Hrun]. simpl in Hrun.
  destruct (ps !! 3%nat) as [a3|] eqn:H3; [|discriminate Hrun]. simpl in Hrun.
  destruct (ps !! 8%nat) as [b3|] eqn:H8; [|discriminate Hrun]. simpl in Hrun.
  destruct (ps !! 4%nat) as [a4|] eqn:H4; [|discriminate Hrun]. simpl in Hrun.
  destruct (ps !! 9%nat) as [b4|] eqn:H9; [|discriminate Hrun].
  injection Hrun as <-.
  split; [apply lookup_lt_Some in H9; lia|]. split; [done|].
  intros i Hi.
  destruct i as [|[|[|[|[|i]]]]]; simpl; [eauto 6 .. | lia].
Qed.

Lemma preview_matchups_short (ps : list (participant F)) :
  (length ps < 10)%nat → preview_matchups ps = Raise IndexError.
Proof.
  intros Hshort.
  destruct (preview_matchups ps) as [pairs|e] eqn:Hrun.
  - apply preview_matchups_returns in Hrun. lia.
  - revert Hrun. matchups_lookups.
    do 10 (match goal with
           | |- context [match ?o with Some _ => _ | None => _ end] =>
               destruct o; simpl; [|intros Hrun; by injection Hrun as <-]
           end).
    discriminate.
Qed.

(** The matchups loop pairs participant [i] with participant [i + 5] for
    [i] from 0 to 4 when the match has ten participants or more, and raises
    [IndexError] on a match with fewer. *)
Theorem preview_matchups_pairs_halves (ps : list (participant F)) :
  match preview_matchups ps with
  | Ok pairs =>
      (10 ≤ length ps)%nat
      ∧ length pairs = 5%nat
      ∧ ∀ i, (i < 5)%nat →
          ∃ a b, ps !! i = Some a ∧ ps !! (i + 5)%nat = Some b ∧ pairs !! i = Some (a, b)
  | Raise e => e = IndexError ∧ (length ps < 10)%nat
  end.
Proof.
  destruct (preview_matchups ps) as [pairs|e] eqn:Hrun.
  - by apply preview_matchups_returns.
  - destruct (decide (length ps < 10)%nat) as [Hshort|Hlong].
    + rewrite preview_matchups_short in Hrun by done. by injection Hrun as <-.
    + exfalso. revert Hrun. matchups_lookups.
      destruct (lookup_lt_is_Some_2 ps 0) as [? ->]; [lia|].
      destruct (lookup_lt_is_Some_2 ps 5) as [? ->]; [lia|].
      destruct (lookup_lt_is_Some_2 ps 1) as [? ->]; [lia|].
      destruct (lookup_lt_is_Some_2 ps 6) as [? ->]; [lia|].
      destruct (lookup_lt_is_Some_2 ps 2) as [? ->]; [lia|].
      destruct (lookup_lt_is_Some_2 ps 7) as [? ->]; [lia|].
      destruct (lookup_lt_is_Some_2 ps 3) as [? ->]; [lia|].
      destruct (lookup_lt_is_Some_2 ps 8) as [? ->]; [lia|].
      destruct (lookup_lt_is_Some_2 ps 4) as [? ->]; [lia|].
      destruct (lookup_lt_is_Some_2 ps 9) as [? ->]; [lia|].
      discriminate.
Qed.


(** A call of [get_match_preview_list] that returns was given at least one
    match id, found the region of the platform in the first id, returns one
    preview for each id, in the order of the ids, and returns the row that
    the fold loop makes of exactly these previews. *)
Theorem get_match_preview_list_returns (match_ids : list string) (summoner_db summoner_db' :
    Summoner F) (puuid : string) (t t' : trace) (previews : list (match_json F)) :
  fetch_list match_ids summoner_db puuid t = (Ok (summoner_db', previews), t') →
  ∃ region,
    get_region_by_platform
      (hd EmptyString (split_char "_" (hd EmptyString match_ids))) = Ok region
    ∧ match_ids ≠ []
    ∧ gather (map (fun id => fetch (match_url API_KEY region id) puuid) match_ids) t
      = (Ok previews, t')
    ∧ length previews = length match_ids
    ∧ fold_matches fromtimestamp_date summoner_db previews = Ok summoner_db'.
Proof.
  unfold get_match_preview_list. intros Hrun.
  destruct match_ids as [|first rest]; [discriminate Hrun|].
  unfold mbind, io_bind, lift in Hrun. simpl hd in *.
  destruct (get_region_by_platform (hd EmptyString (split_char "_" first)))
    as [region|e]; [|discriminate Hrun].
  exists region. split; [done|]. split; [done|].
  destruct (gather _ t) as [[results|e] t1] eqn:Hgather; [|discriminate Hrun].
  destruct (fold_matches fromtimestamp_date summoner_db results) as [db1|e] eqn:Hfold;
    [|discriminate Hrun].
  injection Hrun as <- <- <-.
  split; [done|]. split; [|done].
  by apply gather_length in Hgather as ->; rewrite length_map.
Qed.
End FetchBounds.

(** ** Invariants and frame of the fold pass *)

Lemma sum_map_insert_new {A : Type} (f : A → Z) (m : gmap string A) (k : string) (x : A) :
  m !! k = None → sum_map f (<[k := x]> m) = f x + sum_map f m.
Proof.
  intros Hnew. unfold sum_map. rewrite map_fold_insert_L; [done | | done].
  intros. lia.
Qed.

Lemma sum_map_insert_old {A : Type} (f : A → Z) (m : gmap string A) (k : string) (x y : A) :
  m !! k = Some y → sum_map f (<[k := x]> m) = f x + sum_map f m - f y.
Proof.
  intros Hold. rewrite <- insert_delete_eq.
  rewrite sum_map_insert_new by apply lookup_delete_eq.
  unfold sum_map at 2. rewrite (map_fold_delete_L _ _ k y m); [|intros; lia|done].
  unfold sum_map. lia.
Qed.

Section FoldInvariants.
Context `{PyFloat F}.
Variable fromtimestamp_date : Z → string.

(** The entry that a returning [add_database_champion_stats] wrote counts
    one match more than the entry before, won or lost as the match was. *)
Lemma add_database_champion_stats_counts (summoner_db summoner_db' : Summoner F)
    (m : match_json F) (player_json : participant F) :
  add_database_champion_stats fromtimestamp_date summoner_db m player_json = Ok summoner_db' →
  ∃ entry,
    summoner_db' = set_champion summoner_db (championName player_json) entry
    ∧ match champions summoner_db !! championName player_json with
      | None =>
          ch_num entry = 1
          ∧ ch_wins entry = (if win player_json then 1 else 0)
          ∧ ch_losses entry = (if win player_json then 0 else 1)
      | Some c =>
          ch_num entry = ch_num c + 1
          ∧ ch_wins entry = (if win player_json then ch_wins c + 1 else ch_wins c)
          ∧ ch_losses entry = (if win player_json then ch_losses c else ch_losses c + 1)
      end.
Proof.
  unfold add_database_champion_stats. intros Hrun.
  destruct (champions summoner_db !! championName player_json) as [c|].
  - destruct (champion_kda _ _ _); [|discriminate Hrun]. simpl in Hrun.
    destruct (py_truediv _ (ch_num c + 1)); [|discriminate Hrun]. simpl in Hrun.
    destruct (py_truediv _ (matches summoner_db)); [|discriminate Hrun].
    injection Hrun as <-. eexists. split; [reflexivity|]. done.
  - destruct (champion_kda _ _ _); [|discriminate Hrun]. simpl in Hrun.
    destruct (py_truediv _ (matches summoner_db)); [|discriminate Hrun].
    injection Hrun as <-. eexists. split; [reflexivity|]. simpl.
    by destruct (win player_json).
Qed.

(** One turn of the fold loop on a match it folds, in full: the bucket of
    the position and the entry of the champion are rewritten, one match
    more each, and the rest of both dictionaries is as before. *)
Lemma fold_match_folded (summoner_db summoner_db' : Summoner F) (m : match_json F)
    (player : participant F) :
  fold_match fromtimestamp_date summoner_db m = Ok summoner_db' →
  folded m = Some player →
  ∃ bucket bucket' entry,
    roles summoner_db !! lower (teamPosition player) = Some bucket
    ∧ roles summoner_db' = <[lower (teamPosition player) := bucket']> (roles summoner_db)
    ∧ role_num bucket' = role_num bucket + 1
    ∧ role_wins bucket' = (if win player then role_wins bucket + 1 else role_wins bucket)
    ∧ role_losses bucket'
      = (if win player then role_losses bucket else role_losses bucket + 1)
    ∧ role_win_rate bucket'
      = trunc_int (mul_int (truediv_int (role_wins bucket') (role_num bucket')) 100)
    ∧ champions summoner_db' = <[championName player := entry]> (champions summoner_db)
    ∧ matches summoner_db' = matches summoner_db + 1
    ∧ match champions summoner_db !! championName player with
      | None =>
          ch_num entry = 1
          ∧ ch_wins entry = (if win player then 1 else 0)
          ∧ ch_losses entry = (if win player then 0 else 1)
      | Some c =>
          ch_num entry = ch_num c + 1
          ∧ ch_wins entry = (if win player then ch_wins c + 1 else ch_wins c)
          ∧ ch_losses entry = (if win player then ch_losses c else ch_losses c + 1)
      end.
Proof.
  unfold fold_match, folded. intros Hrun Hfolded.
  destruct (player_summary m) as [summary|]; [|discriminate Hfolded]. simpl in Hrun.
  destruct (bool_decide (gameMode (info m) = "CLASSIC")
            && negb (bool_decide (lower (teamPosition summary) = "")));
    [|discriminate Hfolded].
  injection Hfolded as ->.
  destruct (roles summoner_db !! lower (teamPosition player)) as [bucket|];
    [|discriminate Hrun]. simpl in Hrun.
  unfold py_truediv in Hrun at 1.
  destruct (decide (role_num bucket + 1 = 0)) as [Hzero|Hnum]; [discriminate Hrun|].
  simpl in Hrun.
  destruct (add_database_ranked_stats _ m player) as [db2|] eqn:Hranked;
    [|discriminate Hrun]. simpl in Hrun.
  apply (add_database_ranked_stats_inv fromtimestamp_date) in Hranked
    as (Hmatches & _ & Hroles & Hchampions & _ & _).
  apply add_database_champion_stats_counts in Hrun as (entry & -> & Hentry).
  simpl in *. rewrite Hchampions in Hentry.
  eexists bucket, _, entry. split; [reflexivity|].
  split; [by rewrite Hroles|]. simpl.
  repeat (split; [done|]). split; [by rewrite Hchampions|]. by split.
Qed.

(** The fold loop changes one role bucket and one champion entry per
    folded match and nothing else of the two dictionaries: the other
    buckets and the entries of the other champions, their win and play
    rates included, stay as they were; a skipped match changes nothing. *)
Theorem fold_match_frame (summoner_db summoner_db' : Summoner F) (m : match_json F) :
  fold_match fromtimestamp_date summoner_db m = Ok summoner_db' →
  match folded m with
  | None => summoner_db' = summoner_db
  | Some player =>
      (∀ position, position ≠ lower (teamPosition player) →
         roles summoner_db' !! position = roles summoner_db !! position)
      ∧ (∀ name, name ≠ championName player →
           champions summoner_db' !! name = champions summoner_db !! name)
      ∧ is_Some (roles summoner_db' !! lower (teamPosition player))
      ∧ is_Some (champions summoner_db' !! championName player)
  end.
Proof.
  intros Hrun. destruct (folded m) as [player|] eqn:Hfolded.
  - destruct (fold_match_folded _ _ _ _ Hrun Hfolded)
      as (bucket & bucket' & entry & _ & -> & _ & _ & _ & _ & -> & _).
    split; [intros position Hne; by rewrite lookup_insert_ne|].
    split; [intros name Hne; by rewrite lookup_insert_ne|].
    rewrite !lookup_insert_eq. by split.
  - apply fold_match_inv in Hrun. by rewrite Hfolded in Hrun.
Qed.

Lemma fold_match_consistent (summoner_db summoner_db' : Summoner F) (m : match_json F) :
  fold_match fromtimestamp_date summoner_db m = Ok summoner_db' →
  counts_consistent summoner_db → counts_consistent summoner_db'.
Proof.
  intros Hrun (Hroles & Hchampions & Hbuckets & Hentries).
  destruct (folded m) as [player|] eqn:Hfolded.
  - destruct (fold_match_folded _ _ _ _ Hrun Hfolded)
      as (bucket & bucket' & entry & Hbucket & Hr' & Hnum & Hwins & Hlosses & _
          & Hc' & Hmatches & Hentry).
    unfold counts_consistent. rewrite Hr', Hc', Hmatches.
    pose proof (Hbuckets _ _ Hbucket) as Hb. simpl in Hb.
    split; [rewrite (sum_map_insert_old _ _ _ _ _ Hbucket); lia|].
    split.
    + destruct (champions summoner_db !! championName player) as [c|] eqn:Hlookup.
      * rewrite (sum_map_insert_old _ _ _ _ _ Hlookup). lia.
      * rewrite (sum_map_insert_new _ _ _ _ Hlookup). lia.
    + split.
      * apply map_Forall_insert_2; [|done]. destruct (win player); lia.
      * apply map_Forall_insert_2; [|done].
        destruct (champions summoner_db !! championName player) as [c|] eqn:Hlookup.
        -- pose proof (Hentries _ _ Hlookup) as Hc. simpl in Hc.
           destruct (win player); lia.
        -- destruct (win player); lia.
  - apply fold_match_inv in Hrun. rewrite Hfolded in Hrun. by subst.
Qed.

(** The fold loop keeps the counters of the row in agreement: if [matches]
    is the sum of the role counts and the sum of the champion counts, and
    every count is wins plus losses, before a batch is folded, then the
    same holds of the row that the loop returns. *)
Theorem fold_matches_keeps_counts_consistent (summoner_db summoner_db' : Summoner F)
    (ms : list (match_json F)) :
  fold_matches fromtimestamp_date summoner_db ms = Ok summoner_db' →
  counts_consistent summoner_db → counts_consistent summoner_db'.
Proof.
  revert summoner_db. induction ms as [|m ms IH]; intros summoner_db Hrun Hcons; simpl in *.
  - by injection Hrun as <-.
  - destruct (fold_match fromtimestamp_date summoner_db m) as [db1|] eqn:Hstep;
      [|discriminate Hrun]. simpl in Hrun.
    eapply IH; [exact Hrun|]. by eapply fold_match_consistent.
Qed.
End FoldInvariants.

(** ** The match cache *)

Section MatchCacheFacts.
Context {J : Type}.
Variable matchId_of : J → string.
Variable default_summary_json : option J.

Local Abbreviation row := (match_row J).
Local Abbreviation add := (add_matches_to_db default_summary_json).
Local Abbreviation new_rows := (add_match_bulk_list default_summary_json).
Local Abbreviation save := (save_summaries_to_db matchId_of).

Lemma find_summaries_loop_take (table : list row) (summoner_name : string)
    (matchlist found : list string) :
  (length found < 7)%nat →
  find_summaries_loop table summoner_name matchlist found
  = found ++ take (7 - length found)
               (List.filter (fun id => empty_summary_exists table id summoner_name) matchlist).
Proof.
  revert found. induction matchlist as [|match_id rest IH]; intros found Hlen; simpl.
  - by rewrite take_nil, app_nil_r.
  - destruct (empty_summary_exists table match_id summoner_name).
    + rewrite length_app. simpl. case_decide as Hfull.
      * replace (7 - length found)%nat with 1%nat by lia. simpl. by rewrite take_0.
      * rewrite IH by (rewrite length_app; simpl; lia).
        rewrite length_app. simpl.
        replace (7 - length found)%nat with (S (7 - (length found + 1)))%nat by lia.
        simpl. by rewrite <- app_assoc.
    + by apply IH.
Qed.

Lemma find_summaries_take (table : list row) (matchlist : list string)
    (summoner_name : string) :
  find_summaries_not_in_db table matchlist summoner_name
  = take 7 (List.filter (fun id => empty_summary_exists table id summoner_name) matchlist).
Proof. unfold find_summaries_not_in_db. by rewrite find_summaries_loop_take by (simpl; lia). Qed.

(** [find_summaries_not_in_db] returns the first seven ids of the match
    list that have a row with an empty summary, in the order of the list:
    never more than seven, and no id without such a row. *)
Theorem find_summaries_first_seven (table : list row) (matchlist : list string)
    (summoner_name : string) :
  find_summaries_not_in_db table matchlist summoner_name
  = take 7 (List.filter (fun id => empty_summary_exists table id summoner_name) matchlist)
  ∧ (length (find_summaries_not_in_db table matchlist summoner_name) ≤ 7)%nat
  ∧ (find_summaries_not_in_db table matchlist summoner_name) `sublist_of` matchlist
  ∧ Forall (fun id => empty_summary_exists table id summoner_name = true)
           (find_summaries_not_in_db table matchlist summoner_name).
Proof.
  rewrite find_summaries_take. split; [done|].
  split; [rewrite length_take; lia|]. split.
  - etrans; [apply sublist_take|].
    induction matchlist as [|id rest IH]; simpl; [done|].
    destruct (empty_summary_exists table id summoner_name);
      [by apply sublist_skip | by apply sublist_cons].
  - apply Forall_take, Forall_forall. intros id Hin.
    apply list_elem_of_In, filter_In in Hin. tauto.
Qed.

Local Abbreviation new_row := (new_match_row default_summary_json).

Lemma row_is_true (match_id summoner : string) (r : row) :
  row_is match_id summoner r = true
  ↔ row_match_id r = match_id ∧ row_summoner r = summoner.
Proof.
  unfold row_is. rewrite andb_true_iff, !bool_decide_eq_true. tauto.
Qed.

Lemma match_exists_true (table : list row) (match_id summoner : string) :
  match_exists table match_id summoner = true
  ↔ (match_id, summoner) ∈ map (fun r => (row_match_id r, row_summoner r)) table.
Proof.
  unfold match_exists. rewrite existsb_exists, list_elem_of_fmap. split.
  - intros (r & Hin & Hrow%row_is_true). exists r.
    destruct Hrow as [-> ->]. split; [done | by apply list_elem_of_In].
  - intros (r & Heq & Hin). exists r. split; [by apply list_elem_of_In|].
    apply row_is_true. by injection Heq as -> ->.
Qed.

Lemma match_exists_app (t1 t2 : list row) (match_id summoner : string) :
  match_exists (t1 ++ t2) match_id summoner
  = match_exists t1 match_id summoner || match_exists t2 match_id summoner.
Proof. apply existsb_app. Qed.

Lemma add_match_bulk_list_prefix (table : list row) (matchlist : list string)
    (summoner_name : string) :
  ∃ known_from,
    new_rows table matchlist summoner_name
    = map (new_row summoner_name) (take known_from matchlist)
    ∧ Forall (fun id => match_exists table id summoner_name = false)
             (take known_from matchlist)
    ∧ (known_from = length matchlist
       ∨ ∃ id, matchlist !! known_from = Some id
               ∧ match_exists table id summoner_name = true).
Proof.
  induction matchlist as [|match_id rest (k & Hrows & Hnew & Hstop)]; simpl.
  - exists 0%nat. split; [done|]. split; [done | by left].
  - destruct (match_exists table match_id summoner_name) eqn:Hknown.
    + exists 0%nat. split; [done|]. split; [done|]. right. by exists match_id.
    + exists (S k). simpl. rewrite Hrows. split; [done|].
      split; [by constructor|].
      destruct Hstop as [-> | Hstop]; [by left | by right].
Qed.

(** [add_matches_to_db] appends one row for each id of the match list up
    to the first id that the table holds already for the summoner, and
    stops there: the rows it had are kept, and an id that comes after a
    known one gets no row, whether it is known or not. *)
Theorem add_matches_stops_at_first_known (table : list row) (matchlist : list string)
    (summoner_name : string) :
  ∃ known_from,
    add table matchlist summoner_name
    = table ++ map (new_row summoner_name) (take known_from matchlist)
    ∧ Forall (fun id => match_exists table id summoner_name = false)
             (take known_from matchlist)
    ∧ (known_from = length matchlist
       ∨ ∃ id, matchlist !! known_from = Some id
               ∧ match_exists table id summoner_name = true).
Proof.
  destruct (add_match_bulk_list_prefix table matchlist summoner_name)
    as (k & Hrows & Hnew & Hstop).
  exists k. unfold add_matches_to_db. by rewrite Hrows.
Qed.

(** Adding the same match list a second time adds nothing. *)
Theorem add_matches_twice (table : list row) (matchlist : list string)
    (summoner_name : string) :
  add (add table matchlist summoner_name) matchlist summoner_name
  = add table matchlist summoner_name.
Proof.
  unfold add_matches_to_db. destruct matchlist as [|match_id rest]; simpl.
  - by rewrite !app_nil_r.
  - destruct (match_exists table match_id summoner_name) eqn:Hknown.
    + rewrite app_nil_r, Hknown. by rewrite app_nil_r.
    + rewrite match_exists_app. simpl.
      assert (Hrow : row_is match_id summoner_name (new_row summoner_name match_id) = true)
        by by apply row_is_true.
      rewrite Hrow. simpl. rewrite orb_true_r. by rewrite app_nil_r.
Qed.

(** [add_matches_to_db] keeps the rows of the table unique by match and
    summoner when the match list names no id twice. *)
Theorem add_matches_keeps_rows_unique (table : list row) (matchlist : list string)
    (summoner_name : string) :
  rows_unique table → NoDup matchlist →
  rows_unique (add table matchlist summoner_name).
Proof.
  intros Hunique Hids.
  destruct (add_match_bulk_list_prefix table matchlist summoner_name)
    as (k & Hrows & Hnew & _).
  unfold rows_unique, add_matches_to_db. rewrite Hrows, map_app.
  apply NoDup_app. split; [exact Hunique|]. split.
  - intros [id summoner] Hin Hin'.
    apply list_elem_of_fmap in Hin' as (r & Heq & Hr).
    apply list_elem_of_fmap in Hr as (id' & -> & Hid'). simpl in Heq.
    injection Heq as -> ->.
    rewrite Forall_forall in Hnew. specialize (Hnew _ Hid').
    apply match_exists_true in Hin. congruence.
  - rewrite map_map. simpl. apply NoDup_fmap_2_strong.
    + intros id id' _ _ Heq. by injection Heq.
    + eapply sublist_NoDup; [exact Hids | apply sublist_take].
Qed.

Lemma add_match_bulk_list_all_new (table : list row) (matchlist : list string)
    (summoner_name : string) :
  Forall (fun id => match_exists table id summoner_name = false) matchlist →
  new_rows table matchlist summoner_name = map (new_row summoner_name) matchlist.
Proof.
  induction 1 as [|id rest Hid _ IH]; simpl; [done|]. by rewrite Hid, IH.
Qed.

(** On a first contact the first page is the head of the match list: when
    new rows are created with an empty summary and the table holds none of
    the ids yet, [find_summaries_not_in_db] after [add_matches_to_db]
    returns the first seven ids of the list. *)
Theorem first_page_after_add (table : list row) (matchlist : list string)
    (summoner_name : string) :
  default_summary_json = None →
  Forall (fun id => match_exists table id summoner_name = false) matchlist →
  find_summaries_not_in_db (add table matchlist summoner_name) matchlist summoner_name
  = take 7 matchlist.
Proof.
  intros Hdefault Hnew. rewrite find_summaries_take. f_equal.
  unfold add_matches_to_db. rewrite (add_match_bulk_list_all_new _ _ _ Hnew).
  assert (Hall : ∀ id, id ∈ matchlist →
            empty_summary_exists (table ++ map (new_row summoner_name) matchlist)
              id summoner_name = true).
  { intros id Hin. unfold empty_summary_exists. apply existsb_exists.
    exists (new_row summoner_name id). split.
    - apply in_or_app. right. apply in_map. by apply list_elem_of_In.
    - apply andb_true_iff. split; [by apply row_is_true|].
      unfold summary_is_empty. simpl. by rewrite Hdefault. }
  clear Hnew. revert Hall. generalize (table ++ map (new_row summoner_name) matchlist).
  intros table' Hall. induction matchlist as [|id rest IH]; simpl; [done|].
  rewrite Hall by apply list_elem_of_here. f_equal.
  apply IH. intros id' Hin. apply Hall. by apply list_elem_of_further.
Qed.

Lemma matching_pks_spec (base : nat) (table : list row) (match_id summoner : string)
    (pk : nat) :
  pk ∈ matching_pks base table match_id summoner
  ↔ ∃ r, (base ≤ pk)%nat ∧ table !! (pk - base)%nat = Some r
         ∧ row_is match_id summoner r = true.
Proof.
  revert base. induction table as [|r0 rest IH]; intros base; simpl.
  - split; [by intros ?%elem_of_nil | by intros (r & _ & ? & _)].
  - assert (Hrest : pk ∈ matching_pks (S base) rest match_id summoner
                    ↔ ∃ r, (base < pk)%nat ∧ (r0 :: rest) !! (pk - base)%nat = Some r
                           ∧ row_is match_id summoner r = true).
    { rewrite IH. split; intros (r & Hle & Hlookup & Hrow); exists r.
      - split; [lia|]. split; [|done].
        replace (pk - base)%nat with (S (pk - S base)) by lia. done.
      - split; [lia|]. split; [|done].
        replace (pk - base)%nat with (S (pk - S base)) in Hlookup by lia. done. }
    destruct (row_is match_id summoner r0) eqn:Hrow0.
    + rewrite elem_of_cons, Hrest. split.
      * intros [-> | (r & Hlt & Hlookup & Hrow)].
        -- exists r0. rewrite Nat.sub_diag. by split.
        -- exists r. split; [lia | by split].
      * intros (r & Hle & Hlookup & Hrow).
        destruct (decide (pk = base)) as [-> | Hne]; [by left|].
        right. exists r. split; [lia | by split].
    + rewrite Hrest. split.
      * intros (r & Hlt & Hlookup & Hrow). exists r. split; [lia | by split].
      * intros (r & Hle & Hlookup & Hrow).
        destruct (decide (pk = base)) as [-> | Hne].
        -- rewrite Nat.sub_diag in Hlookup. simpl in Hlookup. congruence.
        -- exists r. split; [lia | by split].
Qed.

Lemma objects_get_found (table : list row) (match_id summoner : string) (pk : nat) :
  objects_get table match_id summoner = Found pk →
  (∃ r, table !! pk = Some r ∧ row_is match_id summoner r = true)
  ∧ ∀ pk' r, table !! pk' = Some r → row_is match_id summoner r = true → pk' = pk.
Proof.
  unfold objects_get. intros Hget.
  destruct (matching_pks 0 table match_id summoner) as [|pk0 [|? ?]] eqn:Hpks;
    try discriminate Hget.
  injection Hget as ->.
  assert (Hspec : ∀ i, i ∈ [pk] ↔ ∃ r, table !! i = Some r
                                        ∧ row_is match_id summoner r = true).
  { intros i. rewrite <- Hpks, matching_pks_spec, Nat.sub_0_r.
    split; intros (r & ?); exists r; [tauto | split; [lia | tauto]]. }
  split.
  - apply Hspec, list_elem_of_here.
  - intros pk' r Hlookup Hrow.
    assert (Hin : pk' ∈ [pk]) by (apply Hspec; eauto).
    by apply list_elem_of_singleton in Hin.
Qed.

Lemma bulk_save_summary_list_found (table : list row) (match_summary_list : list J)
    (summoner_name : string) (objects : list (nat * J)) :
  bulk_save_summary_list matchId_of table match_summary_list summoner_name = Found objects →
  map snd objects = match_summary_list
  ∧ Forall (fun object =>
              objects_get table (matchId_of (snd object)) summoner_name
              = Found (fst object)) objects.
Proof.
  revert objects.
  induction match_summary_list as [|m rest IH]; intros objects Hloop; simpl in Hloop.
  - by injection Hloop as <-.
  - destruct (objects_get table (matchId_of m) summoner_name) as [pk| |] eqn:Hget;
      try discriminate Hloop.
    destruct (bulk_save_summary_list matchId_of table rest summoner_name)
      as [objects'| |]; try discriminate Hloop.
    injection Hloop as <-. destruct (IH _ eq_refl) as [Hsnd Hgets].
    simpl. split; [by rewrite Hsnd | by constructor].
Qed.

(** A call of [save_summaries_to_db] that returns has found exactly one row
    for each summary. It changes no match id and no summoner and adds no
    row, it leaves alone every row that is of none of the summaries, and
    whatever match list [find_summaries_not_in_db] is given afterwards,
    it returns none of the saved matches again. *)
Theorem save_then_find_skips_saved (table table' : list row) (match_summary_list : list J)
    (summoner_name : string) :
  save table match_summary_list summoner_name = Found table' →
  length table' = length table
  ∧ (∀ pk r, table !! pk = Some r →
       ∃ r', table' !! pk = Some r'
             ∧ row_match_id r' = row_match_id r
             ∧ row_summoner r' = row_summoner r
             ∧ (Forall (fun m => row_is (matchId_of m) summoner_name r = false)
                       match_summary_list → r' = r))
  ∧ ∀ m matchlist, m ∈ match_summary_list →
      matchId_of m ∉ find_summaries_not_in_db table' matchlist summoner_name.
Proof.
  unfold save_summaries_to_db. intros Hsave.
  destruct (bulk_save_summary_list matchId_of table match_summary_list summoner_name)
    as [objects| |] eqn:Hloop; try discriminate Hsave.
  injection Hsave as <-.
  apply bulk_save_summary_list_found in Hloop as [Hsnd Hgets].
  rewrite Forall_forall in Hgets.
  split; [apply length_imap|]. split.
  - intros pk r Hlookup. unfold bulk_update. rewrite list_lookup_imap, Hlookup. simpl.
    destruct (List.find _ objects) as [object|] eqn:Hfind.
    + eexists. split; [reflexivity|]. simpl. split; [done|]. split; [done|].
      intros Hnone. exfalso.
      apply find_some in Hfind as [Hin Hpk]. apply Nat.eqb_eq in Hpk.
      apply list_elem_of_In in Hin.
      destruct (objects_get_found _ _ _ _ (Hgets _ Hin)) as [(r0 & Hr0 & Hrow) _].
      rewrite Hpk, Hlookup in Hr0. injection Hr0 as <-.
      rewrite Forall_forall in Hnone.
      assert (Hm : snd object ∈ match_summary_list).
      { rewrite <- Hsnd. apply list_elem_of_fmap. by exists object. }
      specialize (Hnone _ Hm). congruence.
    + exists r. by repeat split.
  - intros m matchlist Hm Hfound.
    rewrite find_summaries_take in Hfound.
    apply elem_of_take in Hfound as (i & Hfound & _).
    apply list_elem_of_lookup_2, list_elem_of_In, filter_In in Hfound as [_ Hempty].
    unfold empty_summary_exists in Hempty.
    apply existsb_exists in Hempty as (r' & Hin & Hrow').
    apply andb_true_iff in Hrow' as [Hrow' Hempty].
    apply list_elem_of_In, list_elem_of_lookup in Hin as [pk Hlookup'].
    unfold bulk_update in Hlookup'. rewrite list_lookup_imap in Hlookup'.
    destruct (table !! pk) as [r|] eqn:Hlookup; [|discriminate Hlookup'].
    simpl in Hlookup'. injection Hlookup' as <-.
    rewrite <- Hsnd in Hm. apply list_elem_of_fmap in Hm as (object & -> & Hobject).
    destruct (objects_get_found _ _ _ _ (Hgets _ Hobject)) as [_ Honly].
    destruct (List.find _ objects) as [object'|] eqn:Hfind.
    + discriminate Hempty.
    + assert (Hpk : pk = fst object).
      { apply (Honly pk r Hlookup). by rewrite <- Hrow'. }
      apply list_elem_of_In in Hobject.
      pose proof (find_none _ _ Hfind _ Hobject) as Hno. simpl in Hno.
      rewrite Hpk, Nat.eqb_refl in Hno. discriminate Hno.
Qed.
End MatchCacheFacts.

(** ** The home page *)

(** [index] looks for the key ["server"] alone: the test
    [("summoners_name" and "server") in request.POST] is the test of its
    second string. A form with a server and a name is redirected to the
    profile, a form without server gets the home page whether it names a
    summoner or not, and a form with a server and no name raises
    [KeyError]. *)
Theorem index_looks_for_server_only (POST : gmap string string) :
  index POST
  = match POST !! "server", POST !! "summoners_name" with
    | None, _ => Ok (Render "api/index.html")
    | Some server, Some summoners_name =>
        Ok (Redirect ("/" +:+ server +:+ "/" +:+ summoners_name +:+ "/"))
    | Some _, None => Raise (KeyError "summoners_name")
    end.
Proof.
  unfold index. simpl py_and_str.
  destruct (POST !! "server") as [server|] eqn:Hserver.
  - rewrite bool_decide_true by eauto. simpl.
    by destruct (POST !! "summoners_name").
  - rewrite bool_decide_false; [done|]. by intros [? ?].
Qed.

(** ** Rows created by [create_user_db] *)

Lemma lower_ascii_not_upper (c : ascii) :
  ¬ (65 ≤ nat_of_ascii (lower_ascii c) ≤ 90)%nat.
Proof.
  unfold lower_ascii. case_decide as Hupper; [|done].
  rewrite nat_ascii_embedding by lia. lia.
Qed.

Lemma lower_not_capitalised (s rest : string) (c : ascii) :
  (65 ≤ nat_of_ascii c ≤ 90)%nat → lower s ≠ String c rest.
Proof.
  intros Hc Heq. destruct s as [|c0 s]; simpl in Heq; [discriminate Heq|].
  injection Heq as Hc0 _. pose proof (lower_ascii_not_upper c0) as Hlow.
  rewrite Hc0 in Hlow. lia.
Qed.

(** A row as [create_user_db] creates it cannot take a match: its roles
    are keyed in capitals and the fold loop looks the position up in lower
    case, so every match that the loop would fold raises [KeyError] with
    the position, before any counter moves. *)
Theorem created_row_cannot_be_folded `{PyFloat F} (fromtimestamp_date : Z → string)
    (default_matches default_minutes : Z)
    (default_champions : gmap string (champion_data F))
    (m : match_json F) (player : participant F) :
  folded m = Some player →
  fold_match fromtimestamp_date
    (create_user_db default_matches default_minutes default_champions) m
  = Raise (KeyError (lower (teamPosition player))).
Proof.
  unfold folded, fold_match. intros Hfolded.
  destruct (player_summary m) as [summary|]; [|discriminate Hfolded]. simpl.
  destruct (bool_decide (gameMode (info m) = "CLASSIC")
            && negb (bool_decide (lower (teamPosition summary) = "")));
    [|discriminate Hfolded].
  injection Hfolded as ->. simpl.
  rewrite !lookup_insert_ne, lookup_empty;
    [done | apply not_eq_sym, lower_not_capitalised; vm_compute; lia ..].
Qed.

(** ** Ranks *)

Section RanksFacts.
Context `{PyFloat F} `{PyRound F}.
Variable API_KEY : string.
Variable league_api : string → nat → response (list League.entry).
Variable fromtimestamp_date : Z → string.
Variable timedelta_str : Z → string.

Local Abbreviation is_queue queue_type :=
  (fun e => bool_decide (League.queueType e = queue_type)).

Lemma summoner_league_loop_spec (l : list League.entry) (solo flex : League.json) :
  match summoner_league_loop l solo flex with
  | Ok (solo', flex') =>
      Forall (fun e => League.wins e + League.losses e ≠ 0) l
      ∧ solo' = match last (List.filter (is_queue "RANKED_SOLO_5x5") l) with
                | Some e => League.Ranked e (league_win_rate e)
                | None => solo
                end
      ∧ flex' = match last (List.filter (is_queue "RANKED_FLEX_SR") l) with
                | Some e => League.Ranked e (league_win_rate e)
                | None => flex
                end
  | Raise e =>
      e = ZeroDivisionError
      ∧ Exists (fun e => League.wins e + League.losses e = 0) l
  end.
Proof.
  revert solo flex. induction l as [|e l IH]; intros solo flex; simpl.
  - done.
  - unfold py_truediv.
    destruct (decide (League.wins e + League.losses e = 0)) as [Hzero|Hgames]; simpl.
    { split; [done | by left]. }
    destruct (decide (League.queueType e = "RANKED_SOLO_5x5")) as [Hsolo|Hsolo].
    + specialize (IH (League.Ranked e (league_win_rate e)) flex).
      destruct (summoner_league_loop l _ flex) as [[solo' flex']|err].
      * destruct IH as (Hall & -> & ->). split; [by constructor|].
        rewrite bool_decide_true by done. rewrite bool_decide_false by (rewrite Hsolo; done).
        rewrite last_cons. split; [|done].
        by destruct (last (List.filter _ l)).
      * destruct IH as [-> Hex]. split; [done | by right].
    + destruct (decide (League.queueType e = "RANKED_FLEX_SR")) as [Hflex|Hflex].
      * specialize (IH solo (League.Ranked e (league_win_rate e))).
        destruct (summoner_league_loop l solo _) as [[solo' flex']|err].
        -- destruct IH as (Hall & -> & ->). split; [by constructor|].
           rewrite bool_decide_false by done. rewrite bool_decide_true by done.
           rewrite last_cons. split; [done|].
           by destruct (last (List.filter _ l)).
        -- destruct IH as [-> Hex]. split; [done | by right].
      * specialize (IH solo flex).
        destruct (summoner_league_loop l solo flex) as [[solo' flex']|err].
        -- destruct IH as (Hall & -> & ->). split; [by constructor|].
           by rewrite !bool_decide_false by done.
        -- destruct IH as [-> Hex]. split; [done | by right].
Qed.

(** The loop of [get_summoner_league] keeps, for solo and for flex, the
    last entry of that queue with its win rate, and the default
    [Unranked] when the list has none. It computes the win rate of every
    entry, of whatever queue, so it raises [ZeroDivisionError] exactly
    when some entry of the list has neither wins nor losses. *)
Theorem summoner_league_json_keeps_last (l : list League.entry) :
  match summoner_league_json l with
  | Ok (solo, flex) =>
      Forall (fun e => League.wins e + League.losses e ≠ 0) l
      ∧ solo = kept_league "RANKED_SOLO_5x5" l
      ∧ flex = kept_league "RANKED_FLEX_SR" l
  | Raise e =>
      e = ZeroDivisionError
      ∧ Exists (fun e => League.wins e + League.losses e = 0) l
  end.
Proof. apply summoner_league_loop_spec. Qed.

Local Abbreviation label queue_id :=
  (fun p leagues => set_tier p (tier_label (pick_league queue_id leagues))).




(** [get_players_ranks] lets the exception of one fetch through: the call
    raises it and returns no match. *)
Lemma get_players_ranks_raises (server : string) (match_json : Detail.summary)
    (summoner_id_list : list string) (t t' : trace) (e : exn) :
  gather (map (fun summoner_id =>
                 get_leagues_json league_api (league_url API_KEY server summoner_id))
              summoner_id_list) t = (Raise e, t') →
  get_players_ranks API_KEY league_api server match_json summoner_id_list t = (Raise e, t').
Proof.
  intros Hgather. unfold get_players_ranks. unfold mbind at 1, io_bind at 1.
  by rewrite Hgather.
Qed.
End RanksFacts.

(** ** The cache and the fetch together *)

Section MatchCacheUnique.
Context {J : Type}.
Variable matchId_of : J → string.

Lemma matching_pks_none (base : nat) (table : list (match_row J))
    (match_id summoner : string) :
  match_exists table match_id summoner = false →
  matching_pks base table match_id summoner = [].
Proof.
  revert base. induction table as [|r rest IH]; intros base Hnone; simpl in *; [done|].
  apply orb_false_elim in Hnone as [-> Hrest]. by apply IH.
Qed.

Lemma matching_pks_one (base : nat) (table : list (match_row J))
    (match_id summoner : string) :
  rows_unique table →
  match_exists table match_id summoner = true →
  ∃ pk, matching_pks base table match_id summoner = [pk].
Proof.
  revert base. induction table as [|r rest IH]; intros base Hunique Hsome; simpl in *;
    [discriminate Hsome|].
  apply NoDup_cons in Hunique as [Hfresh Hunique].
  destruct (row_is match_id summoner r) eqn:Hrow; simpl in Hsome.
  - exists base. f_equal. apply matching_pks_none.
    destruct (match_exists rest match_id summoner) eqn:Hrest; [|done].
    exfalso. apply Hfresh. apply row_is_true in Hrow as [-> ->].
    by apply match_exists_true.
  - by apply IH.
Qed.

(** On a table that holds no match twice for a summoner,
    [save_summaries_to_db] never raises [MultipleObjectsReturned]: it
    returns when every summary has its row, and raises [DoesNotExist] when
    the table holds no row for one of the summaries. *)
Theorem save_summaries_on_unique_rows (table : list (match_row J))
    (match_summary_list : list J) (summoner_name : string) :
  rows_unique table →
  match save_summaries_to_db matchId_of table match_summary_list summoner_name with
  | Found table' =>
      Forall (fun m => match_exists table (matchId_of m) summoner_name = true)
             match_summary_list
  | DoesNotExist =>
      Exists (fun m => match_exists table (matchId_of m) summoner_name = false)
             match_summary_list
  | MultipleObjectsReturned => False
  end.
Proof.
  intros Hunique. unfold save_summaries_to_db.
  induction match_summary_list as [|m rest IH]; simpl; [done|].
  unfold objects_get.
  destruct (match_exists table (matchId_of m) summoner_name) eqn:Hrow.
  - destruct (matching_pks_one 0 _ _ _ Hunique Hrow) as [pk ->].
    destruct (bulk_save_summary_list matchId_of table rest summoner_name);
      [by constructor | by right | done].
  - rewrite (matching_pks_none 0 _ _ _ Hrow). by left.
Qed.
End MatchCacheUnique.

Section ProfileFlow.
Context `{PyFloat F}.
Variable API_KEY : string.
Variable match_api : string → nat → response (match_json F).
Variable perks_api : nat → list perk.
Variable fromtimestamp_date : Z → string.
Variable get_participant_number : match_json F → string → res Z.
Variable get_preview_stats : match_json F → res (participant F).

(** The two calls of [user_info] one after the other: when no id of the
    match list has a row with an empty summary for the summoner, as on
    the visit of a profile whose matches are all saved,
    [find_summaries_not_in_db] returns the empty list and
    [get_match_preview_list] raises [UnboundLocalError] on it, without a
    request. *)
Theorem fetch_of_saved_profile_raises (table : list (match_row (match_json F)))
    (matchlist : list string) (summoner_name : string) (summoner_db : Summoner F)
    (puuid : string) (t : trace) :
  Forall (fun id => empty_summary_exists table id summoner_name = false) matchlist →
  get_match_preview_list API_KEY match_api perks_api fromtimestamp_date
    get_participant_number get_preview_stats
    (find_summaries_not_in_db table matchlist summoner_name) summoner_db puuid t
  = (Raise (UnboundLocalError "match_preview_list"), t).
Proof.
  intros Hsaved. rewrite find_summaries_take.
  replace (List.filter _ matchlist) with (@nil string); [done|].
  induction Hsaved as [|id rest Hid _ IH]; simpl; [done|]. by rewrite Hid.
Qed.
End ProfileFlow.

(** ** The properties above on concrete cases *)

(** The bound on the fetch of [EUW1_2], rate limited twice. *)
Lemma get_match_preview_bounded_witness :
  ∃ suffix,
    snd (Sample.preview (Sample.url_of "EUW1_2") "puuid" []) = [] ++ suffix
    ∧ (gets_of (Sample.url_of "EUW1_2") suffix ≤ 3)%nat
    ∧ (gets_of perks_url suffix ≤ 1)%nat
    ∧ (length (sleeps_of suffix) ≤ 3)%nat.
Proof.
  apply (get_match_preview_bounded Sample.match_api Sample.perks_api
           Sample.fromtimestamp_date Sample.get_participant_number Sample.get_preview_stats
           (Sample.url_of "EUW1_2") "puuid" []).
  apply (bool_decide_unpack _). vm_compute. exact I.
Defined.

(** A match that the remote does not find is requested three times. *)
Lemma get_match_preview_without_200_witness :
  fst (get_match_preview Cases.match_api Sample.perks_api Sample.fromtimestamp_date
         Sample.get_participant_number Sample.get_preview_stats
         (Sample.url_of "EUW1_6") "puuid" [])
  = Raise (Exception "Failed: Maxed out attempts")
  ∧ gets_of (Sample.url_of "EUW1_6")
      (snd (get_match_preview Cases.match_api Sample.perks_api Sample.fromtimestamp_date
              Sample.get_participant_number Sample.get_preview_stats
              (Sample.url_of "EUW1_6") "puuid" []))
    = 3%nat.
Proof.
  apply (get_match_preview_without_200 Cases.match_api Sample.perks_api
           Sample.fromtimestamp_date Sample.get_participant_number Sample.get_preview_stats
           (Sample.url_of "EUW1_6") "puuid" []).
  intros i Hi. split; vm_compute; discriminate.
Defined.

(** A 429 without the header ends the fetch of [EUW1_7] with [KeyError]. *)
Lemma rate_limited_without_retry_after_witness :
  get_match_preview Cases.match_api Sample.perks_api Sample.fromtimestamp_date
    Sample.get_participant_number Sample.get_preview_stats
    (Sample.url_of "EUW1_7") "puuid" []
  = (Raise (KeyError "Retry-After"), [EvGet (Sample.url_of "EUW1_7")]).
Proof.
  apply (rate_limited_without_retry_after Cases.match_api Sample.perks_api
           Sample.fromtimestamp_date Sample.get_participant_number Sample.get_preview_stats
           (Sample.url_of "EUW1_7") "puuid" []).
  - vm_compute. reflexivity.
  - vm_compute. reflexivity.
Defined.


(** A batch of two matches of the sample remote. *)
Lemma get_match_preview_list_returns_witness :
  ∃ summoner_db' previews t',
    Sample.preview_list ["EUW1_1"; "EUW1_2"] Sample.fresh_db "puuid" []
    = (Ok (summoner_db', previews), t')
    ∧ length previews = 2%nat
    ∧ fold_matches Sample.fromtimestamp_date Sample.fresh_db previews = Ok summoner_db'.
Proof.
  destruct (Sample.preview_list ["EUW1_1"; "EUW1_2"] Sample.fresh_db "puuid" [])
    as [[[db' previews]|e] t'] eqn:Hrun; [|vm_compute in Hrun; discriminate Hrun].
  unfold Sample.preview_list in Hrun.
  destruct (get_match_preview_list_returns _ _ _ _ _ _ _ _ _ _ _ _ _ Hrun)
    as (region & _ & _ & _ & Hlen & Hfold).
  exists db', previews, t'. split; [reflexivity|]. split; [exact Hlen | exact Hfold].
Defined.

(** A match won on Garen in the top lane leaves the jungle bucket and the
    entry of Ahri as they were. *)
Lemma fold_match_frame_witness :
  ∃ summoner_db',
    fold_match Sample.fromtimestamp_date Sample.garen_db (Sample.top_preview "EUW1_2" true)
    = Ok summoner_db'
    ∧ roles summoner_db' !! "jungle" = roles Sample.garen_db !! "jungle"
    ∧ champions summoner_db' !! "Ahri" = champions Sample.garen_db !! "Ahri".
Proof.
  destruct (fold_match Sample.fromtimestamp_date Sample.garen_db
              (Sample.top_preview "EUW1_2" true))
    as [db'|e] eqn:Hrun; [|vm_compute in Hrun; discriminate Hrun].
  pose proof (fold_match_frame _ _ _ _ Hrun) as Hframe.
  change (folded (Sample.top_preview "EUW1_2" true))
    with (Some (Sample.player "Garen" "TOP" true 5 2 5)) in Hframe.
  destruct Hframe as (Hroles & Hchampions & _).
  exists db'. split; [reflexivity|].
  split; [apply Hroles | apply Hchampions]; discriminate.
Defined.

Lemma fresh_db_counts_consistent : counts_consistent Sample.fresh_db.
Proof.
  unfold counts_consistent.
  split; [vm_compute; reflexivity|]. split; [vm_compute; reflexivity|].
  split; apply (bool_decide_unpack _); vm_compute; exact I.
Qed.

(** The counters agree after a ranked match and an ARAM match folded into
    a fresh row. *)
Lemma fold_matches_keeps_counts_consistent_witness :
  ∃ summoner_db',
    fold_matches Sample.fromtimestamp_date Sample.fresh_db
      [Sample.top_preview "EUW1_1" true; Sample.aram_preview] = Ok summoner_db'
    ∧ counts_consistent summoner_db'.
Proof.
  destruct (fold_matches Sample.fromtimestamp_date Sample.fresh_db
              [Sample.top_preview "EUW1_1" true; Sample.aram_preview])
    as [db'|e] eqn:Hrun; [|vm_compute in Hrun; discriminate Hrun].
  exists db'. split; [reflexivity|].
  exact (fold_matches_keeps_counts_consistent _ _ _ _ Hrun fresh_db_counts_consistent).
Defined.

(** Two new matches added to a cache of two. *)
Lemma add_matches_keeps_rows_unique_witness :
  rows_unique (add_matches_to_db None Cases.table Cases.matchlist "Faker").
Proof.
  apply (add_matches_keeps_rows_unique None Cases.table Cases.matchlist "Faker").
  - apply (bool_decide_unpack _). vm_compute. exact I.
  - apply (bool_decide_unpack _). vm_compute. exact I.
Defined.

Example add_matches_stops_at_known_id :
  map row_match_id (add_matches_to_db None Cases.table Cases.matchlist "Faker")
  = ["EUW1_1"; "EUW1_2"; "EUW1_4"; "EUW1_3"].
Proof. reflexivity. Qed.

(** The first page of a summoner seen for the first time, with eight
    matches on the remote. *)
Lemma first_page_after_add_witness :
  find_summaries_not_in_db
    (add_matches_to_db None Cases.table Cases.eight_ids "Caps") Cases.eight_ids "Caps"
  = ["EUW1_8"; "EUW1_7"; "EUW1_6"; "EUW1_5"; "EUW1_4"; "EUW1_3"; "EUW1_2"].
Proof.
  apply (first_page_after_add (None : option (match_json Q)) Cases.table
           Cases.eight_ids "Caps").
  - reflexivity.
  - repeat constructor.
Defined.

(** The summary of [EUW1_1] saved into the cache of two: the match is not
    on the next page. *)
Lemma save_then_find_skips_saved_witness :
  ∃ table',
    save_summaries_to_db matchId Cases.table [Sample.fetched_1] "Faker" = Found table'
    ∧ length table' = 2%nat
    ∧ "EUW1_1" ∉ find_summaries_not_in_db table' ["EUW1_1"; "EUW1_2"] "Faker".
Proof.
  destruct (save_summaries_to_db matchId Cases.table [Sample.fetched_1] "Faker")
    as [table'| |] eqn:Hsave; [|vm_compute in Hsave; discriminate Hsave ..].
  destruct (save_then_find_skips_saved _ _ _ _ _ Hsave) as (Hlen & _ & Hskips).
  exists table'. split; [reflexivity|]. split; [exact Hlen|].
  apply (Hskips Sample.fetched_1 ["EUW1_1"; "EUW1_2"]). apply list_elem_of_here.
Defined.

(** The cache of two holds no match twice: saving the first match returns. *)
Lemma save_summaries_on_unique_rows_witness :
  match save_summaries_to_db matchId Cases.table [Sample.fetched_1] "Faker" with
  | Found table' =>
      Forall (fun m => match_exists Cases.table (matchId m) "Faker" = true)
             [Sample.fetched_1]
  | DoesNotExist =>
      Exists (fun m => match_exists Cases.table (matchId m) "Faker" = false)
             [Sample.fetched_1]
  | MultipleObjectsReturned => False
  end.
Proof.
  apply (save_summaries_on_unique_rows matchId Cases.table [Sample.fetched_1] "Faker").
  apply (bool_decide_unpack _). vm_compute. exact I.
Defined.

Example save_of_unknown_match_raises :
  save_summaries_to_db matchId Cases.table [Sample.aram_preview] "Faker" = DoesNotExist.
Proof. reflexivity. Qed.

(** The visit of a profile whose one match is saved. *)
Lemma fetch_of_saved_profile_raises_witness :
  Sample.preview_list (find_summaries_not_in_db Cases.full_table ["EUW1_1"] "Faker")
    Sample.fresh_db "puuid" []
  = (Raise (UnboundLocalError "match_preview_list"), []).
Proof.
  apply (fetch_of_saved_profile_raises Sample.API_KEY Sample.match_api Sample.perks_api
           Sample.fromtimestamp_date Sample.get_participant_number Sample.get_preview_stats
           Cases.full_table ["EUW1_1"] "Faker" Sample.fresh_db "puuid" []).
  repeat constructor.
Defined.

(** A ranked match won in the top lane on the row that [create_user_db]
    makes. *)
Lemma created_row_cannot_be_folded_witness :
  fold_match Sample.fromtimestamp_date (create_user_db 0 0 ∅)
    (Sample.top_preview "EUW1_1" true)
  = Raise (KeyError "top").
Proof.
  exact (created_row_cannot_be_folded Sample.fromtimestamp_date 0 0 ∅
           (Sample.top_preview "EUW1_1" true) (Sample.player "Garen" "TOP" true 5 2 5)
           eq_refl).
Defined.

Example league_of_both_queues :
  @summoner_league_json Q ExactArith.exact Cases.exact_round Cases.both_queues
  = Ok (League.Ranked (Cases.league_entry "RANKED_SOLO_5x5" "PLATINUM" "IV" 30 20) 60,
        League.Ranked (Cases.league_entry "RANKED_FLEX_SR" "GOLD" "II" 10 10) 50).
Proof. vm_compute. reflexivity. Qed.

Example league_without_games_raises :
  @summoner_league_json Q ExactArith.exact Cases.exact_round
    [Cases.league_entry "RANKED_TFT" "GOLD" "I" 0 0]
  = Raise ZeroDivisionError.
Proof. vm_compute. reflexivity. Qed.

